(** * Codebase quality reviewer: the rule engine of [reviewer.py]

    A shallow embedding of the rule classes, the large-file check and
    [analyze_file], and the properties of the specification stated over it.

    Conventions of the embedding.
    - A Python [int] is a [Z]; a Python [str] is a [string]; [None] for an
      optional attribute is [option].
    - A syntax tree of the [ast] module is a [node]: the node classes the
      rules look at have a constructor of their own with the attributes the
      rules read, every other class is [Other].  The [children] of a node are
      what [ast.iter_child_nodes] yields, in that order ([generic_visit] walks
      the same nodes in the same order).
    - A rule instance is a record of its instance attributes; a method that
      mutates [self] takes the instance and returns the updated one.
    - A call that may raise returns a [result]; [open] and [ast.parse] are
      library calls and are variables of the section that holds the analyzer.
    - Where a property is about what one call leaves behind for the next, the
      instances live on a heap that the call finds and returns, and the
      effects of [main] on the outside are listed in the order they happen.
    - Traversals are structural recursions: the interpreter's recursion limit
      is not part of the model. *)

From Stdlib Require Import ZArith List String Ascii Bool Lia DecimalString.
Import ListNotations.

Local Open Scope string_scope.
Local Open Scope Z_scope.

Set Warnings "-register-all".

(** ** Python values *)

(** [str(n)] for an [int]. *)
Definition str (n : Z) : string := NilZero.string_of_int (Z.to_int n).

(** [len(l)] *)
Definition len {A : Type} (l : list A) : Z := Z.of_nat (List.length l).

(** ** Diagnostics: the dictionaries built by [report] and [check_large_file] *)

Record Diagnostic : Type := mkDiagnostic {
  file : string;
  rule_id : string;
  category : string;
  severity : string;
  message : string;
  line : Z
}.

(** ** Syntax trees *)

(** [ast.alias]: one name of an import statement. *)
Record alias : Type := mkAlias {
  alias_name : string;
  asname : option string
}.

(** [ast.arguments], by parameter names. Default values are expressions and
    are among the children of the function definition. *)
Record arguments : Type := mkArguments {
  posonlyargs : list string;
  args : list string;
  vararg : option string;
  kwonlyargs : list string;
  kwarg : option string
}.

Inductive node : Type :=
| FunctionDef (name : string) (fargs : arguments) (lineno end_lineno : Z)
              (children : list node)
| AsyncFunctionDef (name : string) (fargs : arguments) (lineno end_lineno : Z)
                   (children : list node)
| Import (names : list alias) (lineno : Z)
| ImportFrom (module : option string) (names : list alias) (level : Z)
             (lineno : Z)
| If (lineno : Z) (children : list node)
| For (lineno : Z) (children : list node)
| While (lineno : Z) (children : list node)
| Other (children : list node).

(** [ast.iter_child_nodes]. The children of an import statement are its
    [alias] nodes: leaves that no rule matches, kept in [names]. *)
Definition iter_child_nodes (n : node) : list node :=
  match n with
  | FunctionDef _ _ _ _ children => children
  | AsyncFunctionDef _ _ _ _ children => children
  | Import _ _ => []
  | ImportFrom _ _ _ _ => []
  | If _ children => children
  | For _ children => children
  | While _ children => children
  | Other children => children
  end.

(** Induction on trees, with the hypothesis on every child. *)
Section node_induction.
Variable P : node -> Prop.
Hypothesis P_node : forall n, Forall P (iter_child_nodes n) -> P n.

Fixpoint node_children_ind (n : node) : P n :=
  let all :=
    fix all (cs : list node) : Forall P cs :=
      match cs with
      | [] => Forall_nil P
      | c :: cs' => Forall_cons c (node_children_ind c) (all cs')
      end in
  match n with
  | FunctionDef nm a l e cs => P_node (FunctionDef nm a l e cs) (all cs)
  | AsyncFunctionDef nm a l e cs =>
      P_node (AsyncFunctionDef nm a l e cs) (all cs)
  | Import ns l => P_node (Import ns l) (Forall_nil P)
  | ImportFrom m ns lv l => P_node (ImportFrom m ns lv l) (Forall_nil P)
  | If l cs => P_node (If l cs) (all cs)
  | For l cs => P_node (For l cs) (all cs)
  | While l cs => P_node (While l cs) (all cs)
  | Other cs => P_node (Other cs) (all cs)
  end.
End node_induction.

(** ** Rule base class *)

(** The class attributes of a rule class. *)
Record RuleClass : Type := mkRuleClass {
  RULE_ID : string;
  CATEGORY : string;
  SEVERITY : string
}.

(** The instance attributes set by [Rule.__init__]. *)
Record Rule : Type := mkRule {
  file_path : string;
  issues : list Diagnostic
}.

Definition Rule_init (file_path : string) : Rule :=
  {| file_path := file_path; issues := [] |}.

(** [Rule.report]: appends one dictionary to [self.issues]. *)
Definition report (cls : RuleClass) (self : Rule) (message : string) (line : Z)
  : Rule :=
  {| file_path := file_path self;
     issues := issues self ++
       [ {| file := file_path self;
            rule_id := RULE_ID cls;
            category := CATEGORY cls;
            severity := SEVERITY cls;
            message := message;
            line := line |} ] |}.

(** [NodeVisitor.generic_visit], given the [visit] of the class: visits the
    children from left to right. *)
Definition generic_visit (visit : node -> Rule -> Rule) (children : list node)
  (self : Rule) : Rule :=
  fold_left (fun self child => visit child self) children self.

(** ** 1. Long function rule *)
Module LongFunctionRule.

Definition cls : RuleClass :=
  {| RULE_ID := "MAINT_001"; CATEGORY := "Maintainability";
     SEVERITY := "MEDIUM" |}.

Definition MAX_LINES : Z := 50.

Definition visit_FunctionDef (visit : node -> Rule -> Rule)
  (name : string) (lineno end_lineno : Z) (children : list node) (self : Rule)
  : Rule :=
  let length := end_lineno - lineno in
  let self :=
    if length >? MAX_LINES
    then report cls self
           ("Function '" ++ name ++ "' too long (" ++ str length ++ " lines)")
           lineno
    else self in
  generic_visit visit children self.

(** [NodeVisitor.visit] dispatches on the class of the node:
    [visit_FunctionDef] for a [FunctionDef], [generic_visit] otherwise. *)
Fixpoint visit (n : node) (self : Rule) : Rule :=
  match n with
  | FunctionDef name _ lineno end_lineno children =>
      visit_FunctionDef visit name lineno end_lineno children self
  | AsyncFunctionDef _ _ _ _ children => generic_visit visit children self
  | Import _ _ => self
  | ImportFrom _ _ _ _ => self
  | If _ children => generic_visit visit children self
  | For _ children => generic_visit visit children self
  | While _ children => generic_visit visit children self
  | Other children => generic_visit visit children self
  end.

End LongFunctionRule.

(** ** 2. Deprecated import rule *)
Module DeprecatedImportRule.

Definition cls : RuleClass :=
  {| RULE_ID := "DEPR_001"; CATEGORY := "Deprecated"; SEVERITY := "HIGH" |}.

(** A set of strings, used for membership only. *)
Definition DEPRECATED_MODULES : list string := ["imp"; "optparse"].

(** [x in DEPRECATED_MODULES]; [None] is not a member. *)
Definition is_deprecated (x : option string) : bool :=
  match x with
  | Some m => existsb (String.eqb m) DEPRECATED_MODULES
  | None => false
  end.

Definition visit_Import (names : list alias) (lineno : Z) (self : Rule)
  : Rule :=
  fold_left
    (fun self a =>
       if is_deprecated (Some (alias_name a))
       then report cls self
              ("Deprecated module '" ++ alias_name a ++ "' used") lineno
       else self)
    names self.

Definition visit_ImportFrom (module : option string) (lineno : Z)
  (self : Rule) : Rule :=
  if is_deprecated module
  then report cls self
         ("Deprecated module '"
            ++ match module with Some m => m | None => "None" end
            ++ "' used")
         lineno
  else self.

Fixpoint visit (n : node) (self : Rule) : Rule :=
  match n with
  | Import names lineno => visit_Import names lineno self
  | ImportFrom module _ _ lineno => visit_ImportFrom module lineno self
  | FunctionDef _ _ _ _ children => generic_visit visit children self
  | AsyncFunctionDef _ _ _ _ children => generic_visit visit children self
  | If _ children => generic_visit visit children self
  | For _ children => generic_visit visit children self
  | While _ children => generic_visit visit children self
  | Other children => generic_visit visit children self
  end.

End DeprecatedImportRule.

(** ** 3. Too many parameters rule *)
Module TooManyParametersRule.

Definition cls : RuleClass :=
  {| RULE_ID := "MAINT_002"; CATEGORY := "Maintainability";
     SEVERITY := "MEDIUM" |}.

Definition MAX_PARAMS : Z := 5.

Definition visit_FunctionDef (visit : node -> Rule -> Rule)
  (name : string) (fargs : arguments) (lineno : Z) (children : list node)
  (self : Rule) : Rule :=
  let self :=
    if len (args fargs) >? MAX_PARAMS
    then report cls self
           ("Function '" ++ name ++ "' has too many parameters ("
              ++ str (len (args fargs)) ++ ")")
           lineno
    else self in
  generic_visit visit children self.

Fixpoint visit (n : node) (self : Rule) : Rule :=
  match n with
  | FunctionDef name fargs lineno _ children =>
      visit_FunctionDef visit name fargs lineno children self
  | AsyncFunctionDef _ _ _ _ children => generic_visit visit children self
  | Import _ _ => self
  | ImportFrom _ _ _ _ => self
  | If _ children => generic_visit visit children self
  | For _ children => generic_visit visit children self
  | While _ children => generic_visit visit children self
  | Other children => generic_visit visit children self
  end.

End TooManyParametersRule.

(** ** 4. Deep nesting rule *)
Module DeepNestingRule.

Definition cls : RuleClass :=
  {| RULE_ID := "SMELL_001"; CATEGORY := "Code Smell"; SEVERITY := "MEDIUM" |}.

Definition MAX_DEPTH : Z := 3.

(** The class overrides [visit] with a traversal that carries [depth]; the
    loop over [ast.iter_child_nodes(node)] passes the depth it has reached. *)
Fixpoint visit (n : node) (depth : Z) (self : Rule) : Rule :=
  let branch (lineno : Z) (children : list node) :=
    let depth := depth + 1 in
    let self :=
      if depth >? MAX_DEPTH
      then report cls self "Deep nesting detected" lineno
      else self in
    fold_left (fun self child => visit child depth self) children self in
  let other (children : list node) :=
    fold_left (fun self child => visit child depth self) children self in
  match n with
  | If lineno children => branch lineno children
  | For lineno children => branch lineno children
  | While lineno children => branch lineno children
  | FunctionDef _ _ _ _ children => other children
  | AsyncFunctionDef _ _ _ _ children => other children
  | Import _ _ => self
  | ImportFrom _ _ _ _ => self
  | Other children => other children
  end.

End DeepNestingRule.

(** A rule object as [analyze_file] holds it in its list [rules]: the instance
    and the [visit] that the class of the instance resolves to. *)
Record RuleObject : Type := mkRuleObject {
  self_ : Rule;
  visit_ : node -> Rule -> Rule
}.

(** The constructor calls [LongFunctionRule(file_path)], ... *)
Definition new_LongFunctionRule (file_path : string) : RuleObject :=
  {| self_ := Rule_init file_path; visit_ := LongFunctionRule.visit |}.

Definition new_DeprecatedImportRule (file_path : string) : RuleObject :=
  {| self_ := Rule_init file_path; visit_ := DeprecatedImportRule.visit |}.

Definition new_TooManyParametersRule (file_path : string) : RuleObject :=
  {| self_ := Rule_init file_path; visit_ := TooManyParametersRule.visit |}.

(** [rule.visit(tree)] leaves [depth] at its default, 0. *)
Definition new_DeepNestingRule (file_path : string) : RuleObject :=
  {| self_ := Rule_init file_path;
     visit_ := fun tree => DeepNestingRule.visit tree 0 |}.

(** ** Exceptions *)

(** The exception classes that [open], reading, [ast.parse], writing and
    [print] raise; subclasses are folded into the class that an [except]
    clause names. *)
Inductive exn : Type :=
| SyntaxError
| OSError
| UnicodeDecodeError
| UnicodeEncodeError
| ValueError
| RecursionError
| MemoryError.

Inductive result (A : Type) : Type :=
| Return (a : A)
| Raise (e : exn).

Arguments Return {A} a.
Arguments Raise {A} e.

Definition bind {A B : Type} (m : result A) (k : A -> result B) : result B :=
  match m with
  | Return a => k a
  | Raise e => Raise e
  end.

Notation "x <- m ;; k" := (bind m (fun x => k))
  (at level 61, m at next level, right associativity).

(** ** 5. Large file rule *)

Definition LF : ascii := Ascii.ascii_of_nat 10.

(** [f.readlines()] on the text of the file: every line keeps its newline,
    a last line without one is a line too. *)
Fixpoint readlines (text : string) : list string :=
  match text with
  | EmptyString => []
  | String c rest =>
      if Ascii.eqb c LF then String c EmptyString :: readlines rest
      else match readlines rest with
           | [] => [String c EmptyString]
           | l :: ls => String c l :: ls
           end
  end.

Section Analyzer.

(** [with open(file_path, encoding="utf-8") as f: f.read()]: the text of the
    file as text mode gives it (decoded, newlines translated to LF), or the
    exception that opening or decoding raises. The file is not modified while
    it is analysed, so both reads of [analyze_file] see the same outcome. *)
Variable open_read : string -> result string.

(** [ast.parse] *)
Variable ast_parse : string -> result node.

Definition check_large_file (file_path : string) (max_lines : Z)
  : result (option Diagnostic) :=
  text <- open_read file_path ;;
  let lines := readlines text in
  if len lines >? max_lines
  then Return (Some {| file := file_path;
                       rule_id := "ORG_001";
                       category := "Organization";
                       severity := "MEDIUM";
                       message := "File too large (" ++ str (len lines)
                                    ++ " lines)";
                       line := 1 |})
  else Return None.

Definition analyze_file (file_path : string) : result (list Diagnostic) :=
  let issues' : list Diagnostic := [] in
  large_file_issue <- check_large_file file_path 500 ;;
  let issues' :=
    match large_file_issue with
    | Some d => (issues' ++ [d])%list
    | None => issues'
    end in
  match (text <- open_read file_path ;; ast_parse text) with
  | Raise SyntaxError => Return issues'
  | Raise e => Raise e
  | Return tree =>
      let rules :=
        [ new_LongFunctionRule file_path;
          new_DeprecatedImportRule file_path;
          new_TooManyParametersRule file_path;
          new_DeepNestingRule file_path ] in
      Return
        (fold_left
           (fun issues' rule =>
              (issues' ++ issues (visit_ rule tree (self_ rule)))%list)
           rules issues')
  end.

End Analyzer.

(** ** The rule instances of the process *)

(** A run of [analyze_file] happens in a process that has run it before: the
    instances that earlier calls created are still there. The heap holds the
    rule instances by address; a call finds a heap and leaves one. Class
    attributes are never assigned by the program and stay constants. *)
Definition Heap : Type := list Rule.

Definition Cmd (A : Type) : Type := Heap -> result A * Heap.

Definition cmd_ret {A : Type} (a : A) : Cmd A := fun h => (Return a, h).

Definition cmd_lift {A : Type} (r : result A) : Cmd A := fun h => (r, h).

Definition cmd_bind {A B : Type} (m : Cmd A) (k : A -> Cmd B) : Cmd B :=
  fun h =>
    match m h with
    | (Return a, h') => k a h'
    | (Raise e, h') => (Raise e, h')
    end.

Notation "x <~ m ;; k" := (cmd_bind m (fun x => k))
  (at level 61, m at next level, right associativity).

(** The instance at an address. An address comes from [new_instance] and is
    in the heap. *)
Definition instance_at (a : nat) (h : Heap) : Rule :=
  nth a h (Rule_init "").

(** The heap after an assignment to the attributes of the instance at an
    address. *)
Definition set_instance (a : nat) (r : Rule) (h : Heap) : Heap :=
  (firstn a h ++ r :: skipn (S a) h)%list.

(** A constructor call, [LongFunctionRule(file_path)] and the like:
    [Rule.__init__] fills a new object with [file_path] and a new empty list
    [issues]; the call returns its address. *)
Definition new_instance (file_path : string) : Cmd nat :=
  fun h => (Return (List.length h), (h ++ [Rule_init file_path])%list).

(** [rule.visit(tree)]: the method of the class updates the instance in
    place. *)
Definition call_visit (visit : node -> Rule -> Rule) (a : nat) (tree : node)
  : Cmd unit :=
  fun h => (Return tt, set_instance a (visit tree (instance_at a h)) h).

(** [rule.issues] *)
Definition read_issues (a : nat) : Cmd (list Diagnostic) :=
  fun h => (Return (issues (instance_at a h)), h).

(** The loop [for rule in rules: rule.visit(tree); issues.extend(rule.issues)]
    over the addresses of the instances and the [visit] of their classes. *)
Fixpoint run_rules (tree : node)
  (rules : list (nat * (node -> Rule -> Rule)))
  (issues' : list Diagnostic) : Cmd (list Diagnostic) :=
  match rules with
  | [] => cmd_ret issues'
  | (a, visit) :: rules' =>
      _ <~ call_visit visit a tree ;;
      found <~ read_issues a ;;
      run_rules tree rules' (issues' ++ found)%list
  end.

Section Analyzer_in_process.

Variable open_read : string -> result string.
Variable ast_parse : string -> result node.

(** [analyze_file] as a call in a process: the same statements, with the
    instances it constructs placed on the heap it finds. *)
Definition analyze_file_call (file_path : string) : Cmd (list Diagnostic) :=
  let issues' : list Diagnostic := [] in
  large_file_issue <~ cmd_lift (check_large_file open_read file_path 500) ;;
  let issues' :=
    match large_file_issue with
    | Some d => (issues' ++ [d])%list
    | None => issues'
    end in
  match (text <- open_read file_path ;; ast_parse text) with
  | Raise SyntaxError => cmd_ret issues'
  | Raise e => cmd_lift (Raise e)
  | Return tree =>
      r1 <~ new_instance file_path ;;
      r2 <~ new_instance file_path ;;
      r3 <~ new_instance file_path ;;
      r4 <~ new_instance file_path ;;
      let rules :=
        [ (r1, LongFunctionRule.visit);
          (r2, DeprecatedImportRule.visit);
          (r3, TooManyParametersRule.visit);
          (r4, fun tree => DeepNestingRule.visit tree 0) ] in
      run_rules tree rules issues'
  end.

End Analyzer_in_process.

(** ** File scanner *)

(** [s.endswith(suffix)]: some tail of [s] is [suffix]. *)
Fixpoint endswith (s suffix : string) : bool :=
  String.eqb s suffix
  || match s with
     | EmptyString => false
     | String _ s' => endswith s' suffix
     end.

Section Scanner.

(** [os.path.isfile] *)
Variable os_path_isfile : string -> bool.

(** [os.walk(path)]: the triples [(root, dirs, filenames)] it yields, in the
    order it yields them; nothing for a path that is not a directory. *)
Variable os_walk : string -> list (string * list string * list string).

(** [os.path.join] of two components. *)
Variable os_path_join : string -> string -> string.

Definition get_python_files (path : string) : list string :=
  let files : list string := [] in
  if os_path_isfile path && endswith path ".py" then [path]
  else
    fold_left
      (fun files '(root, _, filenames) =>
         fold_left
           (fun files file =>
              if endswith file ".py"
              then (files ++ [os_path_join root file])%list
              else files)
           filenames files)
      (os_walk path) files.

End Scanner.

(** ** Main entry *)

(** What a run of [main] does to the outside, in the order it does it. *)
Inductive effect : Type :=
| Opened (file : string)
| Dumped (file : string) (value : list Diagnostic)
| Printed (text : string).

(** A step of [main]: the effects it has had, and how it ended. *)
Definition Act (A : Type) : Type := (list effect * result A)%type.

Definition act_lift {A : Type} (r : result A) : Act A := ([], r).

Definition act_bind {A B : Type} (m : Act A) (k : A -> Act B) : Act B :=
  match m with
  | (done, Return a) => let (more, r) := k a in ((done ++ more)%list, r)
  | (done, Raise e) => (done, Raise e)
  end.

(** A call to the outside: it has its effect when it returns, and none when
    it raises. *)
Definition perform (e : effect) (outcome : result unit) : Act unit :=
  match outcome with
  | Return _ => ([e], Return tt)
  | Raise x => ([], Raise x)
  end.

Notation "x <! m ;; k" := (act_bind m (fun x => k))
  (at level 61, m at next level, right associativity).

(** The check mark that starts both printed lines (U+2714, as UTF-8). *)
Definition CHECK_MARK : string :=
  String (Ascii.ascii_of_nat 226)
    (String (Ascii.ascii_of_nat 156) (String (Ascii.ascii_of_nat 148) "")).

Section Main.

Variable open_read : string -> result string.
Variable ast_parse : string -> result node.
Variable os_path_isfile : string -> bool.
Variable os_walk : string -> list (string * list string * list string).
Variable os_path_join : string -> string -> string.

(** [open(args.output, "w")]: creates or truncates the file, or raises. *)
Variable open_write : string -> result unit.

(** [json.dump(all_issues, f, indent=2)] to the file opened: writes the
    value, or raises when writing does. *)
Variable json_dump : string -> list Diagnostic -> result unit.

(** [print]: writes the line to the standard output, or raises when the
    output cannot take it ([UnicodeEncodeError] for a character outside its
    encoding). *)
Variable print : string -> result unit.

(** The loop [for file in files: all_issues.extend(analyze_file(file))]. *)
Fixpoint extend_all (files : list string) (all_issues : list Diagnostic)
  : result (list Diagnostic) :=
  match files with
  | [] => Return all_issues
  | file :: files' =>
      found <- analyze_file open_read ast_parse file ;;
      extend_all files' (all_issues ++ found)%list
  end.

(** [main], from the parsed arguments: [path] and the value of [--output],
    ["report.json"] when the option is absent. *)
Definition main (path : string) (output : option string) : Act unit :=
  let output := match output with Some o => o | None => "report.json" end in
  let files :=
    get_python_files os_path_isfile os_walk os_path_join path in
  all_issues <! act_lift (extend_all files []) ;;
  _ <! perform (Opened output) (open_write output) ;;
  _ <! perform (Dumped output all_issues) (json_dump output all_issues) ;;
  let saved := CHECK_MARK ++ " Analysis complete. Report saved to " ++ output in
  _ <! perform (Printed saved) (print saved) ;;
  let found := CHECK_MARK ++ " Issues found: " ++ str (len all_issues) in
  perform (Printed found) (print found).

End Main.

(** * Specification side *)

(** ** Pre-order traversal and positions *)

(** The nodes of a tree in pre-order: a node, then the subtrees of its
    children from left to right. *)
Fixpoint preorder (n : node) : list node :=
  n :: match n with
       | FunctionDef _ _ _ _ cs => flat_map preorder cs
       | AsyncFunctionDef _ _ _ _ cs => flat_map preorder cs
       | Import _ _ => []
       | ImportFrom _ _ _ _ => []
       | If _ cs => flat_map preorder cs
       | For _ cs => flat_map preorder cs
       | While _ cs => flat_map preorder cs
       | Other cs => flat_map preorder cs
       end.

(** A position is the list of child indices from the root. *)
Definition path : Type := list nat.

(** The node at a position. *)
Fixpoint subtree (t : node) (p : path) : option node :=
  match p with
  | [] => Some t
  | i :: p' =>
      match nth_error (iter_child_nodes t) i with
      | Some c => subtree c p'
      | None => None
      end
  end.

(** The nodes from the root down to a position, both included: the node at
    the position and the constructs that enclose it. *)
Fixpoint enclosing (t : node) (p : path) : list node :=
  t :: match p with
       | [] => []
       | i :: p' =>
           match nth_error (iter_child_nodes t) i with
           | Some c => enclosing c p'
           | None => []
           end
       end.

(** [isinstance(node, (ast.If, ast.For, ast.While))] *)
Definition is_branch (n : node) : bool :=
  match n with
  | If _ _ | For _ _ | While _ _ => true
  | _ => false
  end.

(** The number of [If]/[For]/[While] constructs that enclose a position,
    the node at the position included. *)
Definition nesting_depth (t : node) (p : path) : Z :=
  len (filter is_branch (enclosing t p)).

Section children_paths.
Variable paths_of : node -> list path.

Fixpoint children_paths (i : nat) (cs : list node) : list path :=
  match cs with
  | [] => []
  | c :: cs' => (map (cons i) (paths_of c) ++ children_paths (S i) cs')%list
  end.
End children_paths.

(** The positions of a tree in pre-order. *)
Fixpoint preorder_paths (n : node) : list path :=
  [] :: match n with
        | FunctionDef _ _ _ _ cs => children_paths preorder_paths 0 cs
        | AsyncFunctionDef _ _ _ _ cs => children_paths preorder_paths 0 cs
        | Import _ _ => []
        | ImportFrom _ _ _ _ => []
        | If _ cs => children_paths preorder_paths 0 cs
        | For _ cs => children_paths preorder_paths 0 cs
        | While _ cs => children_paths preorder_paths 0 cs
        | Other cs => children_paths preorder_paths 0 cs
        end.

(** ** What each rule reports at one node *)

Definition diagnostic (cls : RuleClass) (file message : string) (line : Z)
  : Diagnostic :=
  {| file := file; rule_id := RULE_ID cls; category := CATEGORY cls;
     severity := SEVERITY cls; message := message; line := line |}.

(** Long-Function: a function definition with [end_line - start_line > 50]. *)
Definition long_function_at (file : string) (n : node) : list Diagnostic :=
  match n with
  | FunctionDef name _ start_line end_line _ =>
      if 50 <? end_line - start_line
      then [ diagnostic LongFunctionRule.cls file
               ("Function '" ++ name ++ "' too long ("
                  ++ str (end_line - start_line) ++ " lines)")
               start_line ]
      else []
  | _ => []
  end.

(** Too-Many-Parameters: a function definition with more than 5 declared
    parameters. *)
Definition too_many_parameters_at (file : string) (n : node)
  : list Diagnostic :=
  match n with
  | FunctionDef name a start_line _ _ =>
      if 5 <? len (args a)
      then [ diagnostic TooManyParametersRule.cls file
               ("Function '" ++ name ++ "' has too many parameters ("
                  ++ str (len (args a)) ++ ")")
               start_line ]
      else []
  | _ => []
  end.

(** The denylist of the Deprecated-Import rule. *)
Definition denylisted (m : string) : bool :=
  String.eqb m "imp" || String.eqb m "optparse".

(** Deprecated-Import: one diagnostic for each imported module name in the
    denylist, at the line of the statement. *)
Definition deprecated_import_at (file : string) (n : node)
  : list Diagnostic :=
  match n with
  | Import names l =>
      map (fun a =>
             diagnostic DeprecatedImportRule.cls file
               ("Deprecated module '" ++ alias_name a ++ "' used") l)
          (filter (fun a => denylisted (alias_name a)) names)
  | ImportFrom (Some m) _ _ l =>
      if denylisted m
      then [ diagnostic DeprecatedImportRule.cls file
               ("Deprecated module '" ++ m ++ "' used") l ]
      else []
  | _ => []
  end.

(** Deep-Nesting: an [If]/[For]/[While] node whose nesting depth exceeds 3. *)
Definition deep_nesting_at (file : string) (n : node) (depth : Z)
  : list Diagnostic :=
  match n with
  | If l _ | For l _ | While l _ =>
      if 3 <? depth
      then [ diagnostic DeepNestingRule.cls file "Deep nesting detected" l ]
      else []
  | _ => []
  end.

(** Deep-Nesting at a position of a tree. *)
Definition deep_nesting_at_path (file : string) (t : node) (p : path)
  : list Diagnostic :=
  match subtree t p with
  | Some n => deep_nesting_at file n (nesting_depth t p)
  | None => []
  end.

(** Large-File: more than 500 lines, reported at line 1. *)
Definition large_file_of (file text : string) : list Diagnostic :=
  if 500 <? len (readlines text)
  then [ {| file := file; rule_id := "ORG_001"; category := "Organization";
            severity := "MEDIUM";
            message := "File too large (" ++ str (len (readlines text))
                         ++ " lines)";
            line := 1 |} ]
  else [].

(** ** Further notions *)

(** The length of the longest chain of nested [If]/[For]/[While] constructs
    of a tree. *)
Fixpoint nesting_height (n : node) : Z :=
  let deepest (cs : list node) :=
    fold_right (fun c h => Z.max (nesting_height c) h) 0 cs in
  match n with
  | If _ cs => 1 + deepest cs
  | For _ cs => 1 + deepest cs
  | While _ cs => 1 + deepest cs
  | FunctionDef _ _ _ _ cs => deepest cs
  | AsyncFunctionDef _ _ _ _ cs => deepest cs
  | Import _ _ => 0
  | ImportFrom _ _ _ _ => 0
  | Other cs => deepest cs
  end.

(** The line a node carries, for the classes of which a rule reads it. *)
Definition node_line (n : node) : option Z :=
  match n with
  | FunctionDef _ _ l _ _ => Some l
  | AsyncFunctionDef _ _ l _ _ => Some l
  | Import _ l => Some l
  | ImportFrom _ _ _ l => Some l
  | If l _ => Some l
  | For l _ => Some l
  | While l _ => Some l
  | Other _ => None
  end.

(** Line numbers are 1-based at every node of the tree. *)
Definition lines_positive (tree : node) : Prop :=
  forall n l, In n (preorder tree) -> node_line n = Some l -> 1 <= l.

(** The number of newline characters of a text. *)
Fixpoint count_LF (text : string) : Z :=
  match text with
  | EmptyString => 0
  | String c rest => (if Ascii.eqb c LF then 1 else 0) + count_LF rest
  end.

(** The text is not empty and its last character is not a newline. *)
Fixpoint open_ended (text : string) : bool :=
  match text with
  | EmptyString => false
  | String c EmptyString => negb (Ascii.eqb c LF)
  | String _ rest => open_ended rest
  end.

(** The fixed identity of each kind of diagnostic. *)
Definition identities : list (string * string * string) :=
  [ ("ORG_001", "Organization", "MEDIUM");
    ("MAINT_001", "Maintainability", "MEDIUM");
    ("DEPR_001", "Deprecated", "HIGH");
    ("MAINT_002", "Maintainability", "MEDIUM");
    ("SMELL_001", "Code Smell", "MEDIUM") ].

(** The diagnostics of a list with a given rule identifier. *)
Definition with_rule_id (id : string) (ds : list Diagnostic)
  : list Diagnostic :=
  filter (fun d => String.eqb (rule_id d) id) ds.

(** The height of the deepest child. *)
Definition deepest (cs : list node) : Z :=
  fold_right (fun c h => Z.max (nesting_height c) h) 0 cs.

(** [posixpath.join] of two components. *)
Definition posix_join (a b : string) : string :=
  if String.prefix "/" b then b
  else if String.eqb a "" || endswith a "/" then a ++ b
  else a ++ "/" ++ b.

(** A diagnostic of [file] with the class attributes of [cls]. *)
Definition of_class (cls : RuleClass) (name : string) (d : Diagnostic)
  : Prop :=
  file d = name /\ rule_id d = RULE_ID cls
  /\ category d = CATEGORY cls /\ severity d = SEVERITY cls.

(** The class attributes of the dictionary of [check_large_file]. *)
Definition large_file_cls : RuleClass :=
  {| RULE_ID := "ORG_001"; CATEGORY := "Organization"; SEVERITY := "MEDIUM" |}.

(** The files that one triple of the walk contributes, given the join. *)
Definition python_files_in (os_path_join : string -> string -> string)
  (entry : string * list string * list string) : list string :=
  let '(root, _, filenames) := entry in
  map (os_path_join root)
      (filter (fun file => endswith file ".py") filenames).

(** ** Statements about a traversal *)

(** [visit n] appends [out n] to [self.issues] and changes nothing else. *)
Definition appends (visit : node -> Rule -> Rule)
  (out : string -> node -> list Diagnostic) (n : node) : Prop :=
  forall self,
    visit n self =
    {| file_path := file_path self;
       issues := issues self ++ out (file_path self) n |}.

(** The diagnostics of a Shape-A rule over a whole subtree. *)
Definition over_preorder (at_node : string -> node -> list Diagnostic)
  (file : string) (n : node) : list Diagnostic :=
  flat_map (at_node file) (preorder n).

(** What the traversal started at depth [d] reports at a position of [t]. *)
Definition deep_nesting_from (d : Z) (file : string) (t : node) (p : path)
  : list Diagnostic :=
  match subtree t p with
  | Some n => deep_nesting_at file n (d + nesting_depth t p)
  | None => []
  end.

(** ** Concrete inputs *)

(** A name expression: [ast.Name] with its [ctx] child. *)
Definition a_name : node := Other [Other []].

(** A [pass] statement. *)
Definition a_pass : node := Other [].

(** A text of [n] lines. *)
Definition text_of_lines (n : nat) : string :=
  String.concat "" (repeat ("pass" ++ String LF "") n).

(** A module of 501 lines with a deprecated import, a long function of six
    parameters and, in it, four nested branches after a second import. *)
Definition a_tree : node :=
  Other
    [ Import [mkAlias "imp" None] 1;
      FunctionDef "f"
        (mkArguments [] ["a"; "b"; "c"; "d"; "e"; "g"]%list None [] None)
        3 60
        [ Other [];
          If 4 [a_name;
                For 5 [a_name; a_name;
                       While 6 [a_name;
                                ImportFrom (Some "optparse")
                                  [mkAlias "OptionParser" None] 0 7;
                                If 8 [a_name; a_pass]]]] ] ].

(** A directory [src] with two Python files, a text file and an empty
    subdirectory. *)
Definition a_walk (path : string)
  : list (string * list string * list string) :=
  if String.eqb path "src"
  then [ ("src", ["empty"], ["a.py"; "notes.txt"; "b.py"]);
         ("src/empty", [], []) ]%list
  else [].

(** The files of that directory: [src/a.py] is read, [src/b.py] is not
    UTF-8. *)
Definition a_read (path : string) : result string :=
  if String.eqb path "src/a.py" then Return (text_of_lines 501)
  else if String.eqb path "src/b.py" then Raise UnicodeDecodeError
  else Raise OSError.

(** * Properties *)

(** ** Lists *)

Lemma flat_map_flat_map (A B C : Type) (f : B -> list C) (g : A -> list B)
  (l : list A) :
  flat_map f (flat_map g l) = flat_map (fun x => flat_map f (g x)) l.
Proof.
  induction l as [|x l IH]; simpl; [reflexivity|].
  now rewrite flat_map_app, IH.
Qed.

Lemma flat_map_map (A B C : Type) (f : B -> list C) (g : A -> B)
  (l : list A) :
  flat_map f (map g l) = flat_map (fun x => f (g x)) l.
Proof.
  induction l as [|x l IH]; simpl; [reflexivity|]. now rewrite IH.
Qed.

Lemma flat_map_pointwise (A B : Type) (f g : A -> list B) (l : list A) :
  Forall (fun x => f x = g x) l -> flat_map f l = flat_map g l.
Proof.
  induction 1 as [|x l Hx _ IH]; simpl; [reflexivity|]. now rewrite Hx, IH.
Qed.

Lemma string_append_assoc (s1 s2 s3 : string) :
  (s1 ++ s2) ++ s3 = s1 ++ s2 ++ s3.
Proof. induction s1 as [|c s1 IH]; simpl; [reflexivity|]. now rewrite IH. Qed.

(** ** A visit that appends *)

Lemma rule_eta (self : Rule) :
  self = {| file_path := file_path self; issues := issues self ++ [] |}.
Proof. destruct self; simpl. now rewrite app_nil_r. Qed.

Lemma fold_visit_appends (visit : node -> Rule -> Rule)
  (out : string -> node -> list Diagnostic) (cs : list node) :
  Forall (appends visit out) cs ->
  forall self,
    fold_left (fun self child => visit child self) cs self =
    {| file_path := file_path self;
       issues := issues self ++ flat_map (out (file_path self)) cs |}.
Proof.
  induction 1 as [|c cs Hc _ IH]; intros self; simpl.
  - apply rule_eta.
  - rewrite IH, Hc; simpl. now rewrite <- app_assoc.
Qed.

Lemma generic_visit_appends (visit : node -> Rule -> Rule)
  (out : string -> node -> list Diagnostic) (cs : list node) :
  Forall (appends visit out) cs ->
  forall self,
    generic_visit visit cs self =
    {| file_path := file_path self;
       issues := issues self ++ flat_map (out (file_path self)) cs |}.
Proof. apply fold_visit_appends. Qed.

Lemma over_preorder_children (at_node : string -> node -> list Diagnostic)
  (file : string) (cs : list node) :
  flat_map (over_preorder at_node file) cs =
  flat_map (at_node file) (flat_map preorder cs).
Proof. unfold over_preorder. now rewrite flat_map_flat_map. Qed.

Ltac children_case H :=
  intros self; simpl;
  rewrite (generic_visit_appends _ _ _ H); simpl;
  rewrite ?over_preorder_children; reflexivity.

(** ** Long-Function *)

Lemma LongFunctionRule_visit_appends (n : node) :
  appends LongFunctionRule.visit (over_preorder long_function_at) n.
Proof.
  induction n as [n IH] using node_children_ind.
  destruct n as [nm a l e cs|nm a l e cs|ns l|m ns lv l|l cs|l cs|l cs|cs];
    simpl in IH; unfold over_preorder at 1;
    try (children_case IH); try (intros self; apply rule_eta).
  intros self; simpl. unfold LongFunctionRule.visit_FunctionDef.
  rewrite (generic_visit_appends _ _ _ IH).
  unfold LongFunctionRule.MAX_LINES.
  rewrite Z.gtb_ltb. destruct (50 <? e - l); simpl.
  - rewrite <- app_assoc, over_preorder_children. reflexivity.
  - rewrite over_preorder_children. reflexivity.
Qed.

(** ** Too-Many-Parameters *)

Lemma TooManyParametersRule_visit_appends (n : node) :
  appends TooManyParametersRule.visit (over_preorder too_many_parameters_at) n.
Proof.
  induction n as [n IH] using node_children_ind.
  destruct n as [nm a l e cs|nm a l e cs|ns l|m ns lv l|l cs|l cs|l cs|cs];
    simpl in IH; unfold over_preorder at 1;
    try (children_case IH); try (intros self; apply rule_eta).
  intros self; simpl. unfold TooManyParametersRule.visit_FunctionDef.
  rewrite (generic_visit_appends _ _ _ IH).
  unfold TooManyParametersRule.MAX_PARAMS.
  rewrite Z.gtb_ltb. destruct (5 <? len (args a)); simpl.
  - rewrite <- app_assoc, over_preorder_children. reflexivity.
  - rewrite over_preorder_children. reflexivity.
Qed.

(** ** Deprecated-Import *)

Lemma is_deprecated_denylisted (m : string) :
  DeprecatedImportRule.is_deprecated (Some m) = denylisted m.
Proof.
  unfold DeprecatedImportRule.is_deprecated, denylisted; simpl.
  now rewrite orb_false_r.
Qed.

Lemma visit_Import_appends (names : list alias) (l : Z) (self : Rule) :
  DeprecatedImportRule.visit_Import names l self =
  {| file_path := file_path self;
     issues := issues self
                 ++ deprecated_import_at (file_path self) (Import names l) |}.
Proof.
  unfold DeprecatedImportRule.visit_Import.
  revert self; induction names as [|a names IH]; intros self.
  - apply rule_eta.
  - cbn [fold_left]. rewrite IH, is_deprecated_denylisted.
    cbn [deprecated_import_at filter].
    destruct (denylisted (alias_name a)); [|reflexivity].
    cbn [map]. unfold report at 2. cbn [issues].
    rewrite <- app_assoc. reflexivity.
Qed.

Lemma visit_ImportFrom_appends (m : option string) (ns : list alias)
  (lv l : Z) (self : Rule) :
  DeprecatedImportRule.visit_ImportFrom m l self =
  {| file_path := file_path self;
     issues := issues self
                 ++ deprecated_import_at (file_path self)
                      (ImportFrom m ns lv l) |}.
Proof.
  unfold DeprecatedImportRule.visit_ImportFrom.
  destruct m as [m|]; [|apply rule_eta].
  rewrite is_deprecated_denylisted. cbn [deprecated_import_at].
  destruct (denylisted m); [reflexivity|apply rule_eta].
Qed.

Lemma DeprecatedImportRule_visit_appends (n : node) :
  appends DeprecatedImportRule.visit (over_preorder deprecated_import_at) n.
Proof.
  induction n as [n IH] using node_children_ind.
  destruct n as [nm a l e cs|nm a l e cs|ns l|m ns lv l|l cs|l cs|l cs|cs];
    simpl in IH; unfold over_preorder at 1;
    try (children_case IH).
  - intros self. cbn [DeprecatedImportRule.visit preorder flat_map].
    rewrite app_nil_r. apply visit_Import_appends.
  - intros self. cbn [DeprecatedImportRule.visit preorder flat_map].
    rewrite app_nil_r. apply visit_ImportFrom_appends.
Qed.

(** ** Deep-Nesting *)

Lemma nesting_depth_cons (t c : node) (i : nat) (p : path) :
  nth_error (iter_child_nodes t) i = Some c ->
  nesting_depth t (i :: p) =
  (if is_branch t then 1 else 0) + nesting_depth c p.
Proof.
  intros Hc. unfold nesting_depth. cbn [enclosing]. rewrite Hc.
  cbn [filter]. unfold len. destruct (is_branch t); cbn [List.length]; lia.
Qed.

Lemma deep_nesting_from_cons (d : Z) (file : string) (t c : node) (i : nat)
  (p : path) :
  nth_error (iter_child_nodes t) i = Some c ->
  deep_nesting_from d file t (i :: p) =
  deep_nesting_from (d + if is_branch t then 1 else 0) file c p.
Proof.
  intros Hc. unfold deep_nesting_from. cbn [subtree]. rewrite Hc.
  rewrite (nesting_depth_cons t c i p Hc), Z.add_assoc. reflexivity.
Qed.

Lemma deep_nesting_from_root (d : Z) (file : string) (t : node) :
  deep_nesting_from d file t [] =
  deep_nesting_at file t (d + if is_branch t then 1 else 0).
Proof.
  unfold deep_nesting_from, nesting_depth. cbn [subtree enclosing filter].
  destruct (is_branch t); reflexivity.
Qed.

(** The loop over the children, from the child of index [k] on. *)
Lemma fold_visit_depth (d : Z) (cs : list node) :
  Forall (fun c => forall d self,
            DeepNestingRule.visit c d self =
            {| file_path := file_path self;
               issues := issues self
                 ++ flat_map (deep_nesting_from d (file_path self) c)
                      (preorder_paths c) |}) cs ->
  forall (k : nat) (out : string -> path -> list Diagnostic),
    (forall file j c p, nth_error cs j = Some c ->
       out file ((k + j)%nat :: p) = deep_nesting_from d file c p) ->
    forall self,
      fold_left (fun self child => DeepNestingRule.visit child d self) cs self
      = {| file_path := file_path self;
           issues := issues self
             ++ flat_map (out (file_path self))
                  (children_paths preorder_paths k cs) |}.
Proof.
  induction 1 as [|c cs Hc _ IH]; intros k out Hout self.
  - apply rule_eta.
  - cbn [fold_left children_paths]. rewrite Hc.
    rewrite (IH (S k) out).
    + cbn [file_path issues]. rewrite flat_map_app, flat_map_map, app_assoc.
      do 3 f_equal. apply flat_map_pointwise, Forall_forall. intros p _.
      rewrite <- (Hout (file_path self) 0%nat c p eq_refl).
      now rewrite Nat.add_0_r.
    + intros file j c' p Hj.
      rewrite <- (Hout file (S j) c' p Hj). now rewrite Nat.add_succ_r.
Qed.

Lemma DeepNestingRule_visit_appends (n : node) :
  forall d self,
    DeepNestingRule.visit n d self =
    {| file_path := file_path self;
       issues := issues self
         ++ flat_map (deep_nesting_from d (file_path self) n)
              (preorder_paths n) |}.
Proof.
  induction n as [n IH] using node_children_ind.
  assert (Hcs : forall d d' self,
             d' = d + (if is_branch n then 1 else 0) ->
             fold_left (fun self child => DeepNestingRule.visit child d' self)
               (iter_child_nodes n) self =
             {| file_path := file_path self;
                issues := issues self
                  ++ flat_map (deep_nesting_from d (file_path self) n)
                       (children_paths preorder_paths 0 (iter_child_nodes n))
             |}).
  { intros d d' self ->.
    apply (fold_visit_depth _ _ IH 0%nat
             (fun file => deep_nesting_from d file n)).
    intros file j c p Hj. now apply deep_nesting_from_cons. }
  intros d self.
  destruct n as [nm a l e cs|nm a l e cs|ns l|m ns lv l|l cs|l cs|l cs|cs];
    cbn [DeepNestingRule.visit preorder_paths flat_map];
    rewrite deep_nesting_from_root; cbn [is_branch deep_nesting_at];
    cbn [iter_child_nodes is_branch] in Hcs;
    try (rewrite (Hcs d d self ltac:(lia)); reflexivity);
    try (cbn [app]; apply rule_eta);
    unfold DeepNestingRule.MAX_DEPTH; rewrite Z.gtb_ltb;
    rewrite (Hcs d (d + 1) _ eq_refl);
    destruct (3 <? d + 1); cbn [file_path issues report];
    rewrite <- ?app_assoc; reflexivity.
Qed.

(** ** The positions of a tree *)

Lemma preorder_paths_unfold (t : node) :
  preorder_paths t =
  [] :: children_paths preorder_paths 0 (iter_child_nodes t).
Proof. destruct t; reflexivity. Qed.

Lemma preorder_unfold (t : node) :
  preorder t = t :: flat_map preorder (iter_child_nodes t).
Proof. destruct t; reflexivity. Qed.

Lemma In_children_paths (f : node -> list path) (cs : list node) :
  forall (k : nat) (q : path),
    In q (children_paths f k cs) <->
    exists j c p,
      nth_error cs j = Some c /\ In p (f c) /\ q = (k + j)%nat :: p.
Proof.
  induction cs as [|c cs IH]; intros k q; cbn [children_paths].
  - split; [intros []|]. intros (j & c & p & Hj & _). now destruct j.
  - rewrite in_app_iff, in_map_iff, IH. split.
    + intros [(p & <- & Hp)|(j & c' & p & Hj & Hp & ->)].
      * exists 0%nat, c, p. now rewrite Nat.add_0_r.
      * exists (S j), c', p. now rewrite Nat.add_succ_r.
    + intros (j & c' & p & Hj & Hp & ->). destruct j as [|j].
      * left. injection Hj as <-. exists p. now rewrite Nat.add_0_r.
      * right. exists j, c', p. now rewrite Nat.add_succ_r.
Qed.

(** [preorder_paths] lists the positions of the tree, ... *)
Lemma In_preorder_paths (t : node) :
  forall p, In p (preorder_paths t) <-> exists n, subtree t p = Some n.
Proof.
  induction t as [t IH] using node_children_ind. intros p.
  rewrite preorder_paths_unfold. cbn [In].
  rewrite In_children_paths. rewrite Forall_forall in IH. split.
  - intros [<-|(j & c & p' & Hj & Hp & ->)].
    + now exists t.
    + cbn [subtree Nat.add]. rewrite Hj.
      apply (IH c (nth_error_In _ _ Hj)), Hp.
  - destruct p as [|i p]; [now left|]. intros [n Hn]. right.
    cbn [subtree] in Hn.
    destruct (nth_error (iter_child_nodes t) i) as [c|] eqn:Hi; [|discriminate].
    exists i, c, p. split; [exact Hi|split; [|reflexivity]].
    apply (IH c (nth_error_In _ _ Hi)). now exists n.
Qed.

Lemma NoDup_map_cons (k : nat) (ps : list path) :
  NoDup ps -> NoDup (map (cons k) ps).
Proof.
  induction 1 as [|p ps Hp _ IH]; cbn [map]; constructor; [|assumption].
  rewrite in_map_iff. intros (p' & [= ->] & Hin). contradiction.
Qed.

Lemma NoDup_children_paths (f : node -> list path) (cs : list node) :
  Forall (fun c => NoDup (f c)) cs ->
  forall k, NoDup (children_paths f k cs).
Proof.
  induction 1 as [|c cs Hc _ IH]; intros k; cbn [children_paths].
  - constructor.
  - apply NoDup_app; [now apply NoDup_map_cons|apply IH|].
    intros q Hq Hq'. apply in_map_iff in Hq as (p & <- & _).
    apply In_children_paths in Hq' as (j & c' & p' & _ & _ & [= Hk _]).
    lia.
Qed.

(** ... each of them once, ... *)
Lemma NoDup_preorder_paths (t : node) : NoDup (preorder_paths t).
Proof.
  induction t as [t IH] using node_children_ind.
  rewrite preorder_paths_unfold. constructor.
  - rewrite In_children_paths. intros (j & c & p & _ & _ & [=]).
  - now apply NoDup_children_paths.
Qed.

Lemma subtree_children_paths (t : node) (cs : list node) :
  Forall (fun c =>
            map (subtree c) (preorder_paths c) = map Some (preorder c)) cs ->
  forall k,
    (forall j c, nth_error cs j = Some c ->
                 nth_error (iter_child_nodes t) (k + j) = Some c) ->
    map (subtree t) (children_paths preorder_paths k cs) =
    map Some (flat_map preorder cs).
Proof.
  induction 1 as [|c cs Hc _ IH]; intros k Hk; [reflexivity|].
  cbn [children_paths flat_map]. rewrite !map_app, map_map. f_equal.
  - rewrite <- Hc. apply map_ext. intros p. cbn [subtree].
    specialize (Hk 0%nat c eq_refl). rewrite Nat.add_0_r in Hk.
    now rewrite Hk.
  - apply IH. intros j c' Hj. specialize (Hk (S j) c' Hj).
    now rewrite Nat.add_succ_r in Hk.
Qed.

(** ... in the order of the pre-order traversal. *)
Lemma subtree_preorder_paths (t : node) :
  map (subtree t) (preorder_paths t) = map Some (preorder t).
Proof.
  induction t as [t IH] using node_children_ind.
  rewrite preorder_paths_unfold, preorder_unfold. cbn [map subtree]. f_equal.
  apply subtree_children_paths; [assumption|]. now intros j c Hj.
Qed.

(** ** The rules on a fresh instance *)

Lemma LongFunctionRule_issues (file : string) (tree : node) :
  issues (LongFunctionRule.visit tree (Rule_init file)) =
  flat_map (long_function_at file) (preorder tree).
Proof. now rewrite LongFunctionRule_visit_appends. Qed.

Lemma DeprecatedImportRule_issues (file : string) (tree : node) :
  issues (DeprecatedImportRule.visit tree (Rule_init file)) =
  flat_map (deprecated_import_at file) (preorder tree).
Proof. now rewrite DeprecatedImportRule_visit_appends. Qed.

Lemma TooManyParametersRule_issues (file : string) (tree : node) :
  issues (TooManyParametersRule.visit tree (Rule_init file)) =
  flat_map (too_many_parameters_at file) (preorder tree).
Proof. now rewrite TooManyParametersRule_visit_appends. Qed.

Lemma DeepNestingRule_issues (file : string) (tree : node) :
  issues (DeepNestingRule.visit tree 0 (Rule_init file)) =
  flat_map (deep_nesting_at_path file tree) (preorder_paths tree).
Proof. now rewrite DeepNestingRule_visit_appends. Qed.

(** ** The analyzer *)

Section Analyzer_facts.
Variable open_read : string -> result string.
Variable ast_parse : string -> result node.

Lemma check_large_file_read (file_path text : string) :
  open_read file_path = Return text ->
  check_large_file open_read file_path 500 =
  Return (hd_error (large_file_of file_path text)).
Proof.
  intros Hread. unfold check_large_file, large_file_of, bind.
  rewrite Hread, Z.gtb_ltb.
  now destruct (500 <? len (readlines text)).
Qed.

Lemma analyze_file_open_raises (file_path : string) (e : exn) :
  open_read file_path = Raise e ->
  analyze_file open_read ast_parse file_path = Raise e.
Proof.
  intros Hread. unfold analyze_file, check_large_file, bind.
  now rewrite Hread.
Qed.

Lemma analyze_file_syntax_error (file_path text : string) :
  open_read file_path = Return text ->
  ast_parse text = Raise SyntaxError ->
  analyze_file open_read ast_parse file_path =
  Return (large_file_of file_path text).
Proof.
  intros Hread Hparse. unfold analyze_file.
  rewrite (check_large_file_read _ _ Hread). unfold bind.
  rewrite Hread, Hparse. unfold large_file_of.
  now destruct (500 <? len (readlines text)).
Qed.

Lemma analyze_file_parse_raises (file_path text : string) (e : exn) :
  open_read file_path = Return text ->
  ast_parse text = Raise e ->
  e <> SyntaxError ->
  analyze_file open_read ast_parse file_path = Raise e.
Proof.
  intros Hread Hparse He. unfold analyze_file.
  rewrite (check_large_file_read _ _ Hread). unfold bind.
  rewrite Hread, Hparse. now destruct e.
Qed.

Lemma analyze_file_parsed (file_path text : string) (tree : node) :
  open_read file_path = Return text ->
  ast_parse text = Return tree ->
  analyze_file open_read ast_parse file_path =
  Return (large_file_of file_path text
            ++ issues (LongFunctionRule.visit tree (Rule_init file_path))
            ++ issues (DeprecatedImportRule.visit tree (Rule_init file_path))
            ++ issues (TooManyParametersRule.visit tree (Rule_init file_path))
            ++ issues (DeepNestingRule.visit tree 0 (Rule_init file_path)))%list.
Proof.
  intros Hread Hparse. unfold analyze_file.
  rewrite (check_large_file_read _ _ Hread). unfold bind.
  rewrite Hread, Hparse. cbn [fold_left]. f_equal.
  cbn [visit_ self_ new_LongFunctionRule new_DeprecatedImportRule
       new_TooManyParametersRule new_DeepNestingRule].
  rewrite <- !app_assoc. f_equal.
  unfold large_file_of. now destruct (500 <? len (readlines text)).
Qed.

End Analyzer_facts.

(** ** The analyzer in a process *)

Lemma instance_at_app (h l : Heap) (k : nat) :
  instance_at (List.length h + k) (h ++ l)%list = nth k l (Rule_init "").
Proof.
  unfold instance_at. rewrite app_nth2 by lia. f_equal. lia.
Qed.

Lemma set_instance_app (h l : Heap) (k : nat) (r : Rule) :
  set_instance (List.length h + k) r (h ++ l)%list =
  (h ++ set_instance k r l)%list.
Proof.
  unfold set_instance.
  rewrite firstn_app, skipn_app, firstn_all2, skipn_all2 by lia.
  replace (List.length h + k - List.length h)%nat with k by lia.
  replace (S (List.length h + k) - List.length h)%nat with (S k) by lia.
  cbn [app]. now rewrite <- app_assoc.
Qed.

Lemma instance_at_end (h l : Heap) :
  instance_at (List.length h) (h ++ l)%list = nth 0 l (Rule_init "").
Proof. now rewrite <- (instance_at_app h l 0), Nat.add_0_r. Qed.

Lemma set_instance_end (h l : Heap) (r : Rule) :
  set_instance (List.length h) r (h ++ l)%list =
  (h ++ set_instance 0 r l)%list.
Proof. now rewrite <- (set_instance_app h l 0), Nat.add_0_r. Qed.

(** A call returns what [analyze_file] returns, whatever the heap it finds,
    and only adds instances to that heap. *)
Lemma analyze_file_call_heap (open_read : string -> result string)
  (ast_parse : string -> result node) (file_path : string) (h : Heap) :
  fst (analyze_file_call open_read ast_parse file_path h) =
  analyze_file open_read ast_parse file_path
  /\ exists fresh,
       snd (analyze_file_call open_read ast_parse file_path h) =
       (h ++ fresh)%list.
Proof.
  unfold analyze_file_call, analyze_file, cmd_bind, cmd_lift, cmd_ret.
  destruct (check_large_file open_read file_path 500) as [large|e];
    cbn [bind fst snd];
    [|split; [reflexivity|exists []; now rewrite app_nil_r]].
  destruct (text <- open_read file_path;; ast_parse text) as [tree|e].
  2:{ destruct e; cbn [fst snd]; (split; [reflexivity|]);
      exists []; now rewrite app_nil_r. }
  unfold new_instance. cbn [run_rules].
  rewrite !length_app. cbn [List.length]. rewrite <- !app_assoc. cbn [app].
  rewrite <- !Nat.add_assoc. cbn [Nat.add].
  cbv beta iota delta [cmd_bind call_visit read_issues cmd_ret].
  repeat (rewrite ?instance_at_end, ?set_instance_end, ?instance_at_app,
            ?set_instance_app;
          cbn [set_instance firstn skipn app nth]).
  split; [reflexivity|eexists; reflexivity].
Qed.

(** ** Membership forms *)

Lemma In_long_function (file : string) (tree : node) (d : Diagnostic) :
  In d (issues (LongFunctionRule.visit tree (Rule_init file))) <->
  exists name a l e cs,
    In (FunctionDef name a l e cs) (preorder tree) /\ 50 < e - l /\
    d = diagnostic LongFunctionRule.cls file
          ("Function '" ++ name ++ "' too long (" ++ str (e - l) ++ " lines)")
          l.
Proof.
  rewrite LongFunctionRule_issues, in_flat_map. split.
  - intros (n & Hn & Hd). destruct n; try contradiction.
    cbn [long_function_at] in Hd.
    destruct (50 <? end_lineno - lineno) eqn:Hlt; [|contradiction].
    destruct Hd as [<-|[]]. apply Z.ltb_lt in Hlt.
    now exists name, fargs, lineno, end_lineno, children.
  - intros (name & a & l & e & cs & Hn & Hlt & ->).
    exists (FunctionDef name a l e cs). split; [assumption|].
    cbn [long_function_at]. apply Z.ltb_lt in Hlt. rewrite Hlt. now left.
Qed.

Lemma In_too_many_parameters (file : string) (tree : node) (d : Diagnostic) :
  In d (issues (TooManyParametersRule.visit tree (Rule_init file))) <->
  exists name a l e cs,
    In (FunctionDef name a l e cs) (preorder tree) /\ 5 < len (args a) /\
    d = diagnostic TooManyParametersRule.cls file
          ("Function '" ++ name ++ "' has too many parameters ("
             ++ str (len (args a)) ++ ")")
          l.
Proof.
  rewrite TooManyParametersRule_issues, in_flat_map. split.
  - intros (n & Hn & Hd). destruct n; try contradiction.
    cbn [too_many_parameters_at] in Hd.
    destruct (5 <? len (args fargs)) eqn:Hlt; [|contradiction].
    destruct Hd as [<-|[]]. apply Z.ltb_lt in Hlt.
    now exists name, fargs, lineno, end_lineno, children.
  - intros (name & a & l & e & cs & Hn & Hlt & ->).
    exists (FunctionDef name a l e cs). split; [assumption|].
    cbn [too_many_parameters_at]. apply Z.ltb_lt in Hlt. rewrite Hlt.
    now left.
Qed.

Lemma In_deep_nesting (file : string) (tree : node) (d : Diagnostic) :
  In d (issues (DeepNestingRule.visit tree 0 (Rule_init file))) <->
  exists p l cs,
    (subtree tree p = Some (If l cs) \/ subtree tree p = Some (For l cs)
     \/ subtree tree p = Some (While l cs)) /\
    3 < nesting_depth tree p /\
    d = diagnostic DeepNestingRule.cls file "Deep nesting detected" l.
Proof.
  rewrite DeepNestingRule_issues, in_flat_map. split.
  - intros (p & _ & Hd). unfold deep_nesting_at_path in Hd.
    destruct (subtree tree p) as [n|] eqn:Hn; [|contradiction].
    destruct n; try contradiction; cbn [deep_nesting_at] in Hd;
      destruct (3 <? nesting_depth tree p) eqn:Hlt; try contradiction;
      destruct Hd as [<-|[]]; apply Z.ltb_lt in Hlt;
      exists p, lineno, children; tauto.
  - intros (p & l & cs & Hn & Hlt & ->). exists p. split.
    + apply In_preorder_paths. destruct Hn as [Hn|[Hn|Hn]]; eauto.
    + unfold deep_nesting_at_path. apply Z.ltb_lt in Hlt.
      destruct Hn as [Hn|[Hn|Hn]]; rewrite Hn; cbn [deep_nesting_at];
        rewrite Hlt; now left.
Qed.

(** * Main results *)

(** C1, as stated, fails: a file that is not UTF-8 makes reading it raise
    [UnicodeDecodeError], a file that cannot be opened makes [open] raise
    [OSError], and [analyze_file], which catches [SyntaxError] only, lets
    both through. *)
Lemma analyze_file_read_error_propagates :
  analyze_file (fun _ => Raise UnicodeDecodeError)
               (fun _ => Return (Other [])) "latin1.py"
  = Raise UnicodeDecodeError
  /\ analyze_file (fun _ => Raise OSError)
                  (fun _ => Return (Other [])) "unreadable.py"
     = Raise OSError
  /\ ~ (forall open_read ast_parse file_path,
          exists ds, analyze_file open_read ast_parse file_path = Return ds).
Proof.
  split; [reflexivity|]. split; [reflexivity|]. intros H.
  destruct (H (fun _ => Raise UnicodeDecodeError)
              (fun _ => Return (Other [])) "latin1.py") as [ds Hds].
  discriminate Hds.
Qed.

(** C1, amended: [analyze_file] returns a list of diagnostics for every file
    that is read and decoded and whose text parses or fails to parse with
    [SyntaxError]; an exception raised while opening or reading the file, and
    any other exception of the parser, reaches the caller. *)
Theorem analyze_file_outcome (open_read : string -> result string)
  (ast_parse : string -> result node) (file_path : string) :
  match open_read file_path with
  | Raise e => analyze_file open_read ast_parse file_path = Raise e
  | Return text =>
      match ast_parse text with
      | Return _ | Raise SyntaxError =>
          exists ds, analyze_file open_read ast_parse file_path = Return ds
      | Raise e => analyze_file open_read ast_parse file_path = Raise e
      end
  end.
Proof.
  destruct (open_read file_path) as [text|e] eqn:Hread.
  - destruct (ast_parse text) as [tree|e] eqn:Hparse.
    + eexists. apply (analyze_file_parsed _ _ _ _ _ Hread Hparse).
    + destruct e;
        try (apply (analyze_file_parse_raises _ _ _ _ _ Hread Hparse);
             discriminate).
      eexists. apply (analyze_file_syntax_error _ _ _ _ Hread Hparse).
  - now apply analyze_file_open_raises.
Qed.

(** C2: the Deep-Nesting rule reports exactly the [If]/[For]/[While] nodes
    whose number of enclosing [If]/[For]/[While] constructs, themselves
    included, exceeds 3, in pre-order and each at its own line. Four nested
    [if]s are reported at the fourth, three nested [if]s are not reported, a
    [for] inside three [if]s is reported; the depth reaches the children
    unchanged and branches that are siblings do not add up. *)
Theorem deep_nesting_exact (file : string) :
  (forall tree,
     issues (DeepNestingRule.visit tree 0 (Rule_init file)) =
     flat_map (deep_nesting_at_path file tree) (preorder_paths tree))
  /\ (forall tree d,
        In d (issues (DeepNestingRule.visit tree 0 (Rule_init file))) <->
        exists p l cs,
          (subtree tree p = Some (If l cs) \/ subtree tree p = Some (For l cs)
           \/ subtree tree p = Some (While l cs)) /\
          3 < nesting_depth tree p /\
          d = {| file := file; rule_id := "SMELL_001";
                 category := "Code Smell"; severity := "MEDIUM";
                 message := "Deep nesting detected"; line := l |})
  /\ (forall tree,
        NoDup (preorder_paths tree) /\
        forall p, In p (preorder_paths tree) <->
                  exists n, subtree tree p = Some n)
  /\ (forall l1 l2 l3 l4,
        issues (DeepNestingRule.visit
                  (Other [If l1 [a_name; If l2 [a_name; If l3 [a_name;
                     If l4 [a_name; a_pass]]]]])
                  0 (Rule_init file)) =
        [ {| file := file; rule_id := "SMELL_001"; category := "Code Smell";
             severity := "MEDIUM"; message := "Deep nesting detected";
             line := l4 |} ])
  /\ (forall l1 l2 l3,
        issues (DeepNestingRule.visit
                  (Other [If l1 [a_name; If l2 [a_name; If l3 [a_name;
                     a_pass]]]])
                  0 (Rule_init file)) = [])
  /\ (forall l1 l2 l3 l4,
        issues (DeepNestingRule.visit
                  (Other [If l1 [a_name; If l2 [a_name; If l3 [a_name;
                     For l4 [a_name; a_name; a_pass]]]]])
                  0 (Rule_init file)) =
        [ {| file := file; rule_id := "SMELL_001"; category := "Code Smell";
             severity := "MEDIUM"; message := "Deep nesting detected";
             line := l4 |} ])
  /\ (forall l1 l2 l3 l4 l5 l6 l7,
        issues (DeepNestingRule.visit
                  (Other [If l1 [a_name;
                            For l2 [a_name; a_name;
                                    While l3 [a_name; a_pass];
                                    If l4 [a_name; a_pass];
                                    For l5 [a_name; a_name; a_pass]];
                            While l6 [a_name; a_pass]];
                          If l7 [a_name; a_pass]])
                  0 (Rule_init file)) = [])
  /\ (forall l cs d self,
        let entered :=
          fold_left
            (fun self child => DeepNestingRule.visit child (d + 1) self) cs
            (if 3 <? d + 1
             then report DeepNestingRule.cls self "Deep nesting detected" l
             else self) in
        DeepNestingRule.visit (If l cs) d self = entered
        /\ DeepNestingRule.visit (For l cs) d self = entered
        /\ DeepNestingRule.visit (While l cs) d self = entered)
  /\ (forall name a l e cs d self,
        DeepNestingRule.visit (FunctionDef name a l e cs) d self =
        fold_left (fun self child => DeepNestingRule.visit child d self)
          cs self)
  /\ (forall cs d self,
        DeepNestingRule.visit (Other cs) d self =
        fold_left (fun self child => DeepNestingRule.visit child d self)
          cs self).
Proof.
  split; [intros tree; apply DeepNestingRule_issues|].
  split; [intros tree d; apply In_deep_nesting|].
  split; [intros tree; split;
          [apply NoDup_preorder_paths|apply In_preorder_paths]|].
  repeat split; intros;
    cbn -[Z.add]; unfold DeepNestingRule.MAX_DEPTH; rewrite ?Z.gtb_ltb;
    reflexivity.
Qed.

(** C3: the large-file check yields an [ORG_001] diagnostic with [line = 1]
    exactly when the file has more than 500 lines, and [analyze_file] returns
    it also when the text of the file does not parse. *)
Theorem large_file_exact (open_read : string -> result string)
  (ast_parse : string -> result node) (file_path text : string) :
  open_read file_path = Return text ->
  let n := len (readlines text) in
  let found :=
    if 500 <? n
    then Some {| file := file_path; rule_id := "ORG_001";
                 category := "Organization"; severity := "MEDIUM";
                 message := "File too large (" ++ str n ++ " lines)";
                 line := 1 |}
    else None in
  check_large_file open_read file_path 500 = Return found
  /\ ((exists d, found = Some d) <-> 500 < n)
  /\ (ast_parse text = Raise SyntaxError ->
      analyze_file open_read ast_parse file_path =
      Return (match found with Some d => [d] | None => [] end))
  /\ (forall tree, ast_parse text = Return tree ->
      exists rest,
        analyze_file open_read ast_parse file_path =
        Return (match found with Some d => [d] | None => [] end ++ rest)%list).
Proof.
  intros Hread n found. subst found n.
  split; [|split; [|split]].
  - rewrite (check_large_file_read _ _ _ Hread). unfold large_file_of.
    now destruct (500 <? len (readlines text)).
  - destruct (500 <? len (readlines text)) eqn:Hlt.
    + apply Z.ltb_lt in Hlt. split; [auto|eauto].
    + apply Z.ltb_ge in Hlt. split; [intros [d [=]]|lia].
  - intros Hparse.
    rewrite (analyze_file_syntax_error _ _ _ _ Hread Hparse).
    unfold large_file_of. now destruct (500 <? len (readlines text)).
  - intros tree Hparse.
    rewrite (analyze_file_parsed _ _ _ _ _ Hread Hparse).
    eexists. f_equal. f_equal.
    unfold large_file_of. now destruct (500 <? len (readlines text)).
Qed.

(** Instances of C3: a file of 501 lines that does not parse, and one of 500
    lines. *)
Lemma large_file_exact_witness :
  (check_large_file (fun _ => Return (text_of_lines 501)) "big.py" 500 =
   Return (Some {| file := "big.py"; rule_id := "ORG_001";
                   category := "Organization"; severity := "MEDIUM";
                   message := "File too large (501 lines)"; line := 1 |})
   /\ analyze_file (fun _ => Return (text_of_lines 501))
        (fun _ => Raise SyntaxError) "big.py" =
      Return [ {| file := "big.py"; rule_id := "ORG_001";
                  category := "Organization"; severity := "MEDIUM";
                  message := "File too large (501 lines)"; line := 1 |} ])
  /\ check_large_file (fun _ => Return (text_of_lines 500)) "big.py" 500 =
     Return None.
Proof.
  split.
  - destruct (large_file_exact (fun _ => Return (text_of_lines 501))
                (fun _ => Raise SyntaxError) "big.py" (text_of_lines 501)
                eq_refl) as (Hcheck & _ & Hsyntax & _).
    split; [exact Hcheck|exact (Hsyntax eq_refl)].
  - destruct (large_file_exact (fun _ => Return (text_of_lines 500))
                (fun _ => Raise SyntaxError) "big.py" (text_of_lines 500)
                eq_refl) as (Hcheck & _).
    exact Hcheck.
Defined.

(** C4: when parsing raises [SyntaxError], [analyze_file] returns what the
    large-file check found and nothing else: no rule on trees has run, no
    exception leaves [analyze_file], and no diagnostic stands for the parse
    failure. *)
Theorem syntax_error_degrades (open_read : string -> result string)
  (ast_parse : string -> result node) (file_path text : string) :
  open_read file_path = Return text ->
  ast_parse text = Raise SyntaxError ->
  exists found,
    check_large_file open_read file_path 500 = Return found
    /\ analyze_file open_read ast_parse file_path =
       Return (match found with Some d => [d] | None => [] end)
    /\ (forall d, found = Some d -> rule_id d = "ORG_001")
    /\ (len (readlines text) <= 500 ->
        analyze_file open_read ast_parse file_path = Return []).
Proof.
  intros Hread Hparse.
  exists (hd_error (large_file_of file_path text)).
  rewrite (check_large_file_read _ _ _ Hread).
  rewrite (analyze_file_syntax_error _ _ _ _ Hread Hparse).
  unfold large_file_of.
  destruct (500 <? len (readlines text)) eqn:Hlt; cbn [hd_error].
  - apply Z.ltb_lt in Hlt. repeat split; [now intros d [= <-]|lia].
  - repeat split. intros d [=].
Qed.

Lemma syntax_error_degrades_witness :
  analyze_file (fun _ => Return "def f(:")
    (fun _ => Raise SyntaxError) "broken.py" = Return [].
Proof.
  destruct (syntax_error_degrades (fun _ => Return "def f(:")
              (fun _ => Raise SyntaxError) "broken.py" "def f(:"
              eq_refl eq_refl) as (found & _ & _ & _ & Hsmall).
  apply Hsmall. vm_compute. discriminate.
Defined.

(** C5: the Deprecated-Import rule reports one [DEPR_001] diagnostic, at the
    line of the statement, for each imported module name that is ["imp"] or
    ["optparse"]: [import imp] and [from optparse import OptionParser] give
    one each, [import json] gives none. *)
Theorem deprecated_import_exact (file : string) :
  (forall tree,
     issues (DeprecatedImportRule.visit tree (Rule_init file)) =
     flat_map (deprecated_import_at file) (preorder tree))
  /\ (forall names l self,
        issues (DeprecatedImportRule.visit (Import names l) self) =
        (issues self ++
         map (fun a =>
                {| file := file_path self; rule_id := "DEPR_001";
                   category := "Deprecated"; severity := "HIGH";
                   message := "Deprecated module '" ++ alias_name a
                                ++ "' used";
                   line := l |})
             (filter (fun a => String.eqb (alias_name a) "imp"
                               || String.eqb (alias_name a) "optparse")
                     names))%list)
  /\ (forall m ns lv l self,
        issues (DeprecatedImportRule.visit (ImportFrom m ns lv l) self) =
        (issues self ++
         match m with
         | Some m =>
             if String.eqb m "imp" || String.eqb m "optparse"
             then [ {| file := file_path self; rule_id := "DEPR_001";
                       category := "Deprecated"; severity := "HIGH";
                       message := "Deprecated module '" ++ m ++ "' used";
                       line := l |} ]
             else []
         | None => []
         end)%list)
  /\ (forall l,
        issues (DeprecatedImportRule.visit
                  (Other [Import [mkAlias "imp" None] l]) (Rule_init file)) =
        [ {| file := file; rule_id := "DEPR_001"; category := "Deprecated";
             severity := "HIGH"; message := "Deprecated module 'imp' used";
             line := l |} ])
  /\ (forall l,
        issues (DeprecatedImportRule.visit
                  (Other [ImportFrom (Some "optparse")
                            [mkAlias "OptionParser" None] 0 l])
                  (Rule_init file)) =
        [ {| file := file; rule_id := "DEPR_001"; category := "Deprecated";
             severity := "HIGH";
             message := "Deprecated module 'optparse' used"; line := l |} ])
  /\ (forall l,
        issues (DeprecatedImportRule.visit
                  (Other [Import [mkAlias "json" None] l]) (Rule_init file)) =
        []).
Proof.
  split; [intros tree; apply DeprecatedImportRule_issues|].
  split.
  { intros names l self. cbn [DeprecatedImportRule.visit].
    rewrite visit_Import_appends. reflexivity. }
  split.
  { intros m ns lv l self. cbn [DeprecatedImportRule.visit].
    rewrite (visit_ImportFrom_appends m ns lv l self).
    destruct m; reflexivity. }
  repeat split; intros; reflexivity.
Qed.

(** C6: the Long-Function rule reports a [MAINT_001] diagnostic for a
    function definition exactly when [end_lineno - lineno > 50]: a difference
    of 51 is reported, a difference of 50 is not. *)
Theorem long_function_exact (file : string) :
  (forall tree,
     issues (LongFunctionRule.visit tree (Rule_init file)) =
     flat_map (long_function_at file) (preorder tree))
  /\ (forall tree d,
        In d (issues (LongFunctionRule.visit tree (Rule_init file))) <->
        exists name a l e cs,
          In (FunctionDef name a l e cs) (preorder tree) /\ 50 < e - l /\
          d = {| file := file; rule_id := "MAINT_001";
                 category := "Maintainability"; severity := "MEDIUM";
                 message := "Function '" ++ name ++ "' too long ("
                              ++ str (e - l) ++ " lines)";
                 line := l |})
  /\ (forall name a l cs,
        issues (LongFunctionRule.visit (FunctionDef name a l (l + 51) cs)
                  (Rule_init file)) =
        {| file := file; rule_id := "MAINT_001";
           category := "Maintainability"; severity := "MEDIUM";
           message := "Function '" ++ name ++ "' too long (51 lines)";
           line := l |}
          :: issues (LongFunctionRule.visit (Other cs) (Rule_init file)))
  /\ (forall name a l cs,
        issues (LongFunctionRule.visit (FunctionDef name a l (l + 50) cs)
                  (Rule_init file)) =
        issues (LongFunctionRule.visit (Other cs) (Rule_init file))).
Proof.
  split; [intros tree; apply LongFunctionRule_issues|].
  split; [intros tree d; apply In_long_function|].
  split; intros name a l cs; rewrite !LongFunctionRule_issues;
    cbn [preorder flat_map long_function_at].
  - replace (l + 51 - l) with 51 by lia. reflexivity.
  - replace (l + 50 - l) with 50 by lia. reflexivity.
Qed.

(** C7: the Too-Many-Parameters rule reports a [MAINT_002] diagnostic for a
    function definition exactly when it declares more than 5 parameters: with
    6 parameters it is reported and the message holds ["6"], with 5 it is
    not. *)
Theorem too_many_parameters_exact (file : string) :
  (forall tree,
     issues (TooManyParametersRule.visit tree (Rule_init file)) =
     flat_map (too_many_parameters_at file) (preorder tree))
  /\ (forall tree d,
        In d (issues (TooManyParametersRule.visit tree (Rule_init file))) <->
        exists name a l e cs,
          In (FunctionDef name a l e cs) (preorder tree) /\
          5 < len (args a) /\
          d = {| file := file; rule_id := "MAINT_002";
                 category := "Maintainability"; severity := "MEDIUM";
                 message := "Function '" ++ name
                              ++ "' has too many parameters ("
                              ++ str (len (args a)) ++ ")";
                 line := l |})
  /\ (forall name po p1 p2 p3 p4 p5 p6 va ko kw l e cs,
        issues (TooManyParametersRule.visit
                  (FunctionDef name
                     (mkArguments po [p1; p2; p3; p4; p5; p6] va ko kw)
                     l e cs)
                  (Rule_init file)) =
        {| file := file; rule_id := "MAINT_002";
           category := "Maintainability"; severity := "MEDIUM";
           message := ("Function '" ++ name ++ "' has too many parameters (")
                        ++ "6" ++ ")";
           line := l |}
          :: issues (TooManyParametersRule.visit (Other cs) (Rule_init file)))
  /\ (forall name po p1 p2 p3 p4 p5 va ko kw l e cs,
        issues (TooManyParametersRule.visit
                  (FunctionDef name
                     (mkArguments po [p1; p2; p3; p4; p5] va ko kw)
                     l e cs)
                  (Rule_init file)) =
        issues (TooManyParametersRule.visit (Other cs) (Rule_init file))).
Proof.
  split; [intros tree; apply TooManyParametersRule_issues|].
  split; [intros tree d; apply In_too_many_parameters|].
  split; intros; rewrite !TooManyParametersRule_issues;
    cbn [preorder flat_map too_many_parameters_at].
  - cbn. unfold diagnostic. cbn. rewrite string_append_assoc.
    reflexivity.
  - reflexivity.
Qed.

(** C8: for a file that parses, [analyze_file] returns the large-file
    diagnostic first, if there is one, then the diagnostics of
    [LongFunctionRule], [DeprecatedImportRule], [TooManyParametersRule] and
    [DeepNestingRule] in this order, each rule's in the order of the pre-order
    traversal of the tree. *)
Theorem analyze_file_order (open_read : string -> result string)
  (ast_parse : string -> result node) (file_path text : string)
  (tree : node) :
  open_read file_path = Return text ->
  ast_parse text = Return tree ->
  exists found,
    check_large_file open_read file_path 500 = Return found
    /\ analyze_file open_read ast_parse file_path =
       Return
         (match found with Some d => [d] | None => [] end
          ++ issues (LongFunctionRule.visit tree (Rule_init file_path))
          ++ issues (DeprecatedImportRule.visit tree (Rule_init file_path))
          ++ issues (TooManyParametersRule.visit tree (Rule_init file_path))
          ++ issues (DeepNestingRule.visit tree 0 (Rule_init file_path)))%list
    /\ issues (LongFunctionRule.visit tree (Rule_init file_path)) =
       flat_map (long_function_at file_path) (preorder tree)
    /\ issues (DeprecatedImportRule.visit tree (Rule_init file_path)) =
       flat_map (deprecated_import_at file_path) (preorder tree)
    /\ issues (TooManyParametersRule.visit tree (Rule_init file_path)) =
       flat_map (too_many_parameters_at file_path) (preorder tree)
    /\ issues (DeepNestingRule.visit tree 0 (Rule_init file_path)) =
       flat_map (deep_nesting_at_path file_path tree) (preorder_paths tree)
    /\ map (subtree tree) (preorder_paths tree) = map Some (preorder tree).
Proof.
  intros Hread Hparse.
  exists (hd_error (large_file_of file_path text)).
  split; [apply (check_large_file_read _ _ _ Hread)|].
  split.
  { rewrite (analyze_file_parsed _ _ _ _ _ Hread Hparse). do 2 f_equal.
    unfold large_file_of. now destruct (500 <? len (readlines text)). }
  split; [apply LongFunctionRule_issues|].
  split; [apply DeprecatedImportRule_issues|].
  split; [apply TooManyParametersRule_issues|].
  split; [apply DeepNestingRule_issues|apply subtree_preorder_paths].
Qed.

Lemma analyze_file_order_witness :
  analyze_file (fun _ => Return (text_of_lines 501)) (fun _ => Return a_tree)
    "m.py" =
  Return
    [ {| file := "m.py"; rule_id := "ORG_001"; category := "Organization";
         severity := "MEDIUM"; message := "File too large (501 lines)";
         line := 1 |};
      {| file := "m.py"; rule_id := "MAINT_001";
         category := "Maintainability"; severity := "MEDIUM";
         message := "Function 'f' too long (57 lines)"; line := 3 |};
      {| file := "m.py"; rule_id := "DEPR_001"; category := "Deprecated";
         severity := "HIGH"; message := "Deprecated module 'imp' used";
         line := 1 |};
      {| file := "m.py"; rule_id := "DEPR_001"; category := "Deprecated";
         severity := "HIGH"; message := "Deprecated module 'optparse' used";
         line := 7 |};
      {| file := "m.py"; rule_id := "MAINT_002";
         category := "Maintainability"; severity := "MEDIUM";
         message := "Function 'f' has too many parameters (6)"; line := 3 |};
      {| file := "m.py"; rule_id := "SMELL_001"; category := "Code Smell";
         severity := "MEDIUM"; message := "Deep nesting detected";
         line := 8 |} ].
Proof.
  destruct (analyze_file_order (fun _ => Return (text_of_lines 501))
              (fun _ => Return a_tree) "m.py" (text_of_lines 501) a_tree
              eq_refl eq_refl) as (found & Hfound & Hall & _).
  rewrite Hall. injection Hfound as <-. reflexivity.
Defined.

(** C9: [analyze_file] is deterministic: a second run on unchanged content
    returns the same sequence of diagnostics as the first, field for field.
    The second run finds the heap that the first one left, with its visited
    instances; neither run reads an instance it has not created, so the
    result is that of [analyze_file] whatever the heap holds, and the
    instances found are left as they were. *)
Theorem analyze_file_deterministic
  (first_read second_read : string -> result string)
  (ast_parse : string -> result node) (file_path : string) (h : Heap) :
  second_read file_path = first_read file_path ->
  let first_run := analyze_file_call first_read ast_parse file_path h in
  let second_run :=
    analyze_file_call second_read ast_parse file_path (snd first_run) in
  fst second_run = fst first_run
  /\ fst first_run = analyze_file first_read ast_parse file_path
  /\ (exists fresh, snd first_run = (h ++ fresh)%list)
  /\ (exists fresh, snd second_run = (snd first_run ++ fresh)%list).
Proof.
  intros Hsame first_run second_run. subst first_run second_run.
  destruct (analyze_file_call_heap first_read ast_parse file_path h)
    as [Hfirst Hheap].
  destruct (analyze_file_call_heap second_read ast_parse file_path
              (snd (analyze_file_call first_read ast_parse file_path h)))
    as [Hsecond Hheap'].
  split; [|split; [exact Hfirst|split; [exact Hheap|exact Hheap']]].
  rewrite Hsecond, Hfirst.
  unfold analyze_file, check_large_file, bind. now rewrite Hsame.
Qed.

(** The process has analysed [old.py] before and still holds an instance
    with its report; between the two runs on [m.py] another file was
    deleted, [m.py] is as it was. *)
Lemma analyze_file_deterministic_witness :
  let stale : Heap :=
    [ {| file_path := "old.py";
         issues := [ {| file := "old.py"; rule_id := "DEPR_001";
                        category := "Deprecated"; severity := "HIGH";
                        message := "Deprecated module 'imp' used";
                        line := 1 |} ] |} ] in
  let first_read := fun _ : string => Return (text_of_lines 2) in
  let second_read :=
    fun p => if String.eqb p "m.py" then Return (text_of_lines 2)
             else Raise OSError in
  let first_run :=
    analyze_file_call first_read (fun _ => Return a_tree) "m.py" stale in
  fst (analyze_file_call second_read (fun _ => Return a_tree) "m.py"
         (snd first_run)) =
  fst first_run.
Proof.
  cbv zeta.
  exact (proj1
    (analyze_file_deterministic (fun _ => Return (text_of_lines 2))
       (fun p => if String.eqb p "m.py" then Return (text_of_lines 2)
                 else Raise OSError)
       (fun _ => Return a_tree) "m.py"
       [ {| file_path := "old.py";
            issues := [ {| file := "old.py"; rule_id := "DEPR_001";
                           category := "Deprecated"; severity := "HIGH";
                           message := "Deprecated module 'imp' used";
                           line := 1 |} ] |} ]
       eq_refl)).
Defined.

(** C10: [MAINT_001] and [MAINT_002] come from [FunctionDef] nodes only. The
    count compared with 5 is the length of [args.args]: positional-only and
    keyword-only parameters, [*args] and [**kwargs] do not count. An
    [AsyncFunctionDef] is never reported, whatever its parameters and its
    length; the rules only walk on into its children. *)
Theorem sync_plain_parameters_only (file : string) :
  (forall name po po' ar va va' ko ko' kw kw' l e cs self,
     TooManyParametersRule.visit
       (FunctionDef name (mkArguments po ar va ko kw) l e cs) self =
     TooManyParametersRule.visit
       (FunctionDef name (mkArguments po' ar va' ko' kw') l e cs) self)
  /\ (forall name a l e cs self,
        TooManyParametersRule.visit (FunctionDef name a l e cs) self =
        TooManyParametersRule.visit (Other cs)
          (if 5 <? len (args a)
           then report TooManyParametersRule.cls self
                  ("Function '" ++ name ++ "' has too many parameters ("
                     ++ str (len (args a)) ++ ")") l
           else self))
  /\ (forall name a l e cs self,
        TooManyParametersRule.visit (AsyncFunctionDef name a l e cs) self =
        TooManyParametersRule.visit (Other cs) self
        /\ LongFunctionRule.visit (AsyncFunctionDef name a l e cs) self =
           LongFunctionRule.visit (Other cs) self)
  /\ (forall tree d,
        In d (issues (TooManyParametersRule.visit tree (Rule_init file))) ->
        exists name a l e cs,
          In (FunctionDef name a l e cs) (preorder tree)
          /\ 5 < len (args a) /\ line d = l /\ rule_id d = "MAINT_002")
  /\ (forall tree d,
        In d (issues (LongFunctionRule.visit tree (Rule_init file))) ->
        exists name a l e cs,
          In (FunctionDef name a l e cs) (preorder tree)
          /\ 50 < e - l /\ line d = l /\ rule_id d = "MAINT_001")
  /\ (forall l e,
        issues (TooManyParametersRule.visit
                  (Other [FunctionDef "f"
                            (mkArguments ["p"; "q"]%list
                               ["a"; "b"; "c"; "d"; "e"]%list (Some "args")
                               ["k1"; "k2"; "k3"]%list (Some "kwargs"))
                            l e [a_pass]])
                  (Rule_init file)) = [])
  /\ (forall l,
        issues (TooManyParametersRule.visit
                  (Other [AsyncFunctionDef "f"
                            (mkArguments []
                               ["a"; "b"; "c"; "d"; "e"; "g"; "h"]%list
                               None [] None)
                            l (l + 100) [a_pass]])
                  (Rule_init file)) = []
        /\ issues (LongFunctionRule.visit
                     (Other [AsyncFunctionDef "f"
                               (mkArguments []
                                  ["a"; "b"; "c"; "d"; "e"; "g"; "h"]%list
                                  None [] None)
                               l (l + 100) [a_pass]])
                     (Rule_init file)) = []).
Proof.
  split; [reflexivity|].
  split.
  { intros name a l e cs self. cbn [TooManyParametersRule.visit].
    unfold TooManyParametersRule.visit_FunctionDef,
      TooManyParametersRule.MAX_PARAMS.
    now rewrite Z.gtb_ltb. }
  split; [intros; split; reflexivity|].
  split.
  { intros tree d Hd.
    apply In_too_many_parameters in Hd
      as (name & a & l & e & cs & Hn & Hlt & ->).
    now exists name, a, l, e, cs. }
  split.
  { intros tree d Hd.
    apply In_long_function in Hd as (name & a & l & e & cs & Hn & Hlt & ->).
    now exists name, a, l, e, cs. }
  split; [reflexivity|]. intros l; split; reflexivity.
Qed.

(** * Further properties *)

(** ** Instances accumulate *)

Lemma appends_fresh (visit : node -> Rule -> Rule)
  (out : string -> node -> list Diagnostic) (n : node) :
  appends visit out n ->
  forall self,
    visit n self =
    {| file_path := file_path self;
       issues := issues self
                   ++ issues (visit n (Rule_init (file_path self))) |}.
Proof. intros H self. now rewrite (H (Rule_init _)), (H self). Qed.

Lemma DeepNestingRule_visit_fresh (n : node) (d : Z) (self : Rule) :
  DeepNestingRule.visit n d self =
  {| file_path := file_path self;
     issues := issues self
       ++ issues (DeepNestingRule.visit n d (Rule_init (file_path self))) |}.
Proof.
  now rewrite (DeepNestingRule_visit_appends n d (Rule_init _)),
    (DeepNestingRule_visit_appends n d self).
Qed.

(** X1: a visit never drops or reorders what the instance already holds: it
    appends to [issues] what a fresh instance for the same file would report
    and leaves [file_path] alone. An instance used for two trees in a row
    therefore holds the reports of both. *)
Theorem visit_accumulates (n : node) (self : Rule) :
  let fresh := Rule_init (file_path self) in
  let grown (after : Rule) (found : list Diagnostic) :=
    file_path after = file_path self
    /\ issues after = (issues self ++ found)%list in
  grown (LongFunctionRule.visit n self)
        (issues (LongFunctionRule.visit n fresh))
  /\ grown (DeprecatedImportRule.visit n self)
           (issues (DeprecatedImportRule.visit n fresh))
  /\ grown (TooManyParametersRule.visit n self)
           (issues (TooManyParametersRule.visit n fresh))
  /\ (forall d,
        grown (DeepNestingRule.visit n d self)
              (issues (DeepNestingRule.visit n d fresh)))
  /\ (forall n',
        issues (LongFunctionRule.visit n' (LongFunctionRule.visit n fresh)) =
        (issues (LongFunctionRule.visit n fresh)
         ++ issues (LongFunctionRule.visit n' fresh))%list).
Proof.
  cbv zeta.
  split.
  { rewrite (appends_fresh _ _ n (LongFunctionRule_visit_appends n) self).
    split; reflexivity. }
  split.
  { rewrite (appends_fresh _ _ n (DeprecatedImportRule_visit_appends n) self).
    split; reflexivity. }
  split.
  { rewrite (appends_fresh _ _ n (TooManyParametersRule_visit_appends n) self).
    split; reflexivity. }
  split.
  - intros d. rewrite (DeepNestingRule_visit_fresh n d self).
    split; reflexivity.
  - intros n'.
    rewrite (appends_fresh _ _ n' (LongFunctionRule_visit_appends n')
               (LongFunctionRule.visit n _)).
    cbn [issues]. do 4 f_equal.
    now rewrite (LongFunctionRule_visit_appends n).
Qed.

(** ** The identity of the diagnostics *)

Lemma Forall_flat_map_each (A B : Type) (P : B -> Prop) (f : A -> list B)
  (l : list A) :
  (forall x, Forall P (f x)) -> Forall P (flat_map f l).
Proof.
  intros Hf. induction l as [|x l IH]; cbn [flat_map]; [constructor|].
  apply Forall_app. split; [apply Hf|exact IH].
Qed.

Lemma of_class_diagnostic (cls : RuleClass) (file msg : string) (l : Z) :
  of_class cls file (diagnostic cls file msg l).
Proof. repeat split. Qed.

Lemma LongFunctionRule_of_class (file : string) (tree : node) :
  Forall (of_class LongFunctionRule.cls file)
    (issues (LongFunctionRule.visit tree (Rule_init file))).
Proof.
  rewrite LongFunctionRule_issues. apply Forall_flat_map_each. intros n.
  destruct n; cbn [long_function_at]; try constructor.
  destruct (50 <? end_lineno - lineno); repeat constructor.
Qed.

Lemma TooManyParametersRule_of_class (file : string) (tree : node) :
  Forall (of_class TooManyParametersRule.cls file)
    (issues (TooManyParametersRule.visit tree (Rule_init file))).
Proof.
  rewrite TooManyParametersRule_issues. apply Forall_flat_map_each. intros n.
  destruct n; cbn [too_many_parameters_at]; try constructor.
  destruct (5 <? len (args fargs)); repeat constructor.
Qed.

Lemma DeprecatedImportRule_of_class (file : string) (tree : node) :
  Forall (of_class DeprecatedImportRule.cls file)
    (issues (DeprecatedImportRule.visit tree (Rule_init file))).
Proof.
  rewrite DeprecatedImportRule_issues. apply Forall_flat_map_each. intros n.
  destruct n; cbn [deprecated_import_at]; try constructor.
  - apply Forall_forall. intros d Hd.
    apply in_map_iff in Hd as (a & <- & _). apply of_class_diagnostic.
  - destruct module as [m|]; [|constructor].
    destruct (denylisted m); repeat constructor.
Qed.

Lemma DeepNestingRule_of_class (file : string) (tree : node) :
  Forall (of_class DeepNestingRule.cls file)
    (issues (DeepNestingRule.visit tree 0 (Rule_init file))).
Proof.
  rewrite DeepNestingRule_issues. apply Forall_flat_map_each. intros p.
  unfold deep_nesting_at_path. destruct (subtree tree p) as [n|];
    [|constructor].
  destruct n; cbn [deep_nesting_at]; try constructor;
    destruct (3 <? nesting_depth tree p); repeat constructor.
Qed.

Lemma large_file_of_class (file text : string) :
  Forall (of_class large_file_cls file) (large_file_of file text).
Proof.
  unfold large_file_of.
  destruct (500 <? len (readlines text)); repeat constructor.
Qed.

(** What a run of [analyze_file] that returns has gone through. *)
Lemma analyze_file_returns_inv (open_read : string -> result string)
  (ast_parse : string -> result node) (file_path : string)
  (ds : list Diagnostic) :
  analyze_file open_read ast_parse file_path = Return ds ->
  exists text,
    open_read file_path = Return text
    /\ ((ast_parse text = Raise SyntaxError
         /\ ds = large_file_of file_path text)
        \/ exists tree,
             ast_parse text = Return tree
             /\ ds =
                (large_file_of file_path text
                 ++ issues (LongFunctionRule.visit tree (Rule_init file_path))
                 ++ issues (DeprecatedImportRule.visit tree
                              (Rule_init file_path))
                 ++ issues (TooManyParametersRule.visit tree
                              (Rule_init file_path))
                 ++ issues (DeepNestingRule.visit tree 0
                              (Rule_init file_path)))%list).
Proof.
  intros Hret.
  destruct (open_read file_path) as [text|e] eqn:Hread.
  - exists text. split; [reflexivity|].
    destruct (ast_parse text) as [tree|e] eqn:Hparse.
    + right. exists tree. split; [reflexivity|].
      rewrite (analyze_file_parsed _ _ _ _ _ Hread Hparse) in Hret.
      now injection Hret as <-.
    + left. destruct e;
        try (rewrite (analyze_file_parse_raises _ _ _ _ _ Hread Hparse)
               in Hret by discriminate; discriminate Hret).
      rewrite (analyze_file_syntax_error _ _ _ _ Hread Hparse) in Hret.
      now injection Hret as <-.
  - rewrite (analyze_file_open_raises _ _ _ _ Hread) in Hret.
    discriminate Hret.
Qed.

Lemma of_class_identity (cls : RuleClass) (name : string) (d : Diagnostic) :
  of_class cls name d ->
  In (RULE_ID cls, CATEGORY cls, SEVERITY cls) identities ->
  file d = name
  /\ In (rule_id d, category d, severity d) identities.
Proof.
  intros (Hf & Hr & Hc & Hs) Hin. rewrite Hr, Hc, Hs. now split.
Qed.

Lemma analyze_file_names_and_classes (open_read : string -> result string)
  (ast_parse : string -> result node) (file_path : string)
  (ds : list Diagnostic) (d : Diagnostic) :
  analyze_file open_read ast_parse file_path = Return ds ->
  In d ds ->
  file d = file_path
  /\ In (rule_id d, category d, severity d)
       [ ("ORG_001", "Organization", "MEDIUM");
         ("MAINT_001", "Maintainability", "MEDIUM");
         ("DEPR_001", "Deprecated", "HIGH");
         ("MAINT_002", "Maintainability", "MEDIUM");
         ("SMELL_001", "Code Smell", "MEDIUM") ].
Proof.
  intros Hret Hd.
  apply analyze_file_returns_inv in Hret
    as (text & _ & [(_ & ->)|(tree & _ & ->)]).
  - apply (of_class_identity large_file_cls).
    + eapply Forall_forall; [apply large_file_of_class|exact Hd].
    + cbn; tauto.
  - rewrite !in_app_iff in Hd. destruct Hd as [Hd|[Hd|[Hd|[Hd|Hd]]]].
    + apply (of_class_identity large_file_cls); [|cbn; tauto].
      eapply Forall_forall; [apply large_file_of_class|exact Hd].
    + apply (of_class_identity LongFunctionRule.cls); [|cbn; tauto].
      eapply Forall_forall; [apply LongFunctionRule_of_class|exact Hd].
    + apply (of_class_identity DeprecatedImportRule.cls); [|cbn; tauto].
      eapply Forall_forall; [apply DeprecatedImportRule_of_class|exact Hd].
    + apply (of_class_identity TooManyParametersRule.cls); [|cbn; tauto].
      eapply Forall_forall; [apply TooManyParametersRule_of_class|exact Hd].
    + apply (of_class_identity DeepNestingRule.cls); [|cbn; tauto].
      eapply Forall_forall; [apply DeepNestingRule_of_class|exact Hd].
Qed.

(** X2: every diagnostic that [analyze_file] returns names the analysed file
    and carries one of five fixed triples of rule identifier, category and
    severity. *)
Theorem analyze_file_identity (open_read : string -> result string)
  (ast_parse : string -> result node) (file_path : string)
  (ds : list Diagnostic) (d : Diagnostic) :
  analyze_file open_read ast_parse file_path = Return ds ->
  In d ds ->
  file d = file_path
  /\ In (rule_id d, category d, severity d)
       [ ("ORG_001", "Organization", "MEDIUM");
         ("MAINT_001", "Maintainability", "MEDIUM");
         ("DEPR_001", "Deprecated", "HIGH");
         ("MAINT_002", "Maintainability", "MEDIUM");
         ("SMELL_001", "Code Smell", "MEDIUM") ].
Proof.
  intros Hret Hd.
  exact (analyze_file_names_and_classes open_read ast_parse file_path ds d
           Hret Hd).
Qed.

Lemma analyze_file_identity_witness :
  let d := {| file := "m.py"; rule_id := "ORG_001";
              category := "Organization"; severity := "MEDIUM";
              message := "File too large (501 lines)"; line := 1 |} in
  file d = "m.py"
  /\ In (rule_id d, category d, severity d) identities.
Proof.
  exact (analyze_file_identity (fun _ => Return (text_of_lines 501))
           (fun _ => Raise SyntaxError) "m.py" _ _ eq_refl
           (or_introl eq_refl)).
Defined.

(** ** Grouping by rule identifier *)

Lemma with_rule_id_app (id : string) (l1 l2 : list Diagnostic) :
  with_rule_id id (l1 ++ l2) = (with_rule_id id l1 ++ with_rule_id id l2)%list.
Proof. apply filter_app. Qed.

Lemma with_rule_id_of_class (cls : RuleClass) (name id : string)
  (ds : list Diagnostic) :
  Forall (of_class cls name) ds ->
  with_rule_id id ds = if String.eqb (RULE_ID cls) id then ds else [].
Proof.
  induction 1 as [|d ds (_ & Hid & _) _ IH]; cbn [with_rule_id filter].
  - now destruct (String.eqb (RULE_ID cls) id).
  - fold (with_rule_id id ds). rewrite IH, Hid.
    now destruct (String.eqb (RULE_ID cls) id).
Qed.

(** X3: the rule identifiers do not overlap: selecting the diagnostics of one
    identifier from the result of [analyze_file] gives back, in order, what
    that rule alone reported on the tree. *)
Theorem analyze_file_by_rule_id (open_read : string -> result string)
  (ast_parse : string -> result node) (file_path text : string)
  (tree : node) :
  open_read file_path = Return text ->
  ast_parse text = Return tree ->
  exists ds,
    analyze_file open_read ast_parse file_path = Return ds
    /\ with_rule_id "ORG_001" ds = large_file_of file_path text
    /\ with_rule_id "MAINT_001" ds =
       issues (LongFunctionRule.visit tree (Rule_init file_path))
    /\ with_rule_id "DEPR_001" ds =
       issues (DeprecatedImportRule.visit tree (Rule_init file_path))
    /\ with_rule_id "MAINT_002" ds =
       issues (TooManyParametersRule.visit tree (Rule_init file_path))
    /\ with_rule_id "SMELL_001" ds =
       issues (DeepNestingRule.visit tree 0 (Rule_init file_path))
    /\ (forall id,
          ~ In id ["ORG_001"; "MAINT_001"; "DEPR_001"; "MAINT_002";
                   "SMELL_001"] ->
          with_rule_id id ds = []).
Proof.
  intros Hread Hparse. eexists. split.
  { apply (analyze_file_parsed _ _ _ _ _ Hread Hparse). }
  assert (Hall : forall id,
    with_rule_id id
      (large_file_of file_path text
       ++ issues (LongFunctionRule.visit tree (Rule_init file_path))
       ++ issues (DeprecatedImportRule.visit tree (Rule_init file_path))
       ++ issues (TooManyParametersRule.visit tree (Rule_init file_path))
       ++ issues (DeepNestingRule.visit tree 0 (Rule_init file_path))) =
    ((if String.eqb "ORG_001" id then large_file_of file_path text else [])
     ++ (if String.eqb "MAINT_001" id
         then issues (LongFunctionRule.visit tree (Rule_init file_path))
         else [])
     ++ (if String.eqb "DEPR_001" id
         then issues (DeprecatedImportRule.visit tree (Rule_init file_path))
         else [])
     ++ (if String.eqb "MAINT_002" id
         then issues (TooManyParametersRule.visit tree (Rule_init file_path))
         else [])
     ++ (if String.eqb "SMELL_001" id
         then issues (DeepNestingRule.visit tree 0 (Rule_init file_path))
         else []))%list).
  { intros id. rewrite !with_rule_id_app.
    rewrite (with_rule_id_of_class _ _ id _
               (large_file_of_class file_path text)).
    rewrite (with_rule_id_of_class _ _ id _
               (LongFunctionRule_of_class file_path tree)).
    rewrite (with_rule_id_of_class _ _ id _
               (DeprecatedImportRule_of_class file_path tree)).
    rewrite (with_rule_id_of_class _ _ id _
               (TooManyParametersRule_of_class file_path tree)).
    rewrite (with_rule_id_of_class _ _ id _
               (DeepNestingRule_of_class file_path tree)).
    reflexivity. }
  repeat split; try (rewrite Hall; cbn; now rewrite ?app_nil_r).
  intros id Hid. rewrite Hall. cbn [In] in Hid.
  destruct (String.eqb_spec "ORG_001" id); [tauto|].
  destruct (String.eqb_spec "MAINT_001" id); [tauto|].
  destruct (String.eqb_spec "DEPR_001" id); [tauto|].
  destruct (String.eqb_spec "MAINT_002" id); [tauto|].
  destruct (String.eqb_spec "SMELL_001" id); [tauto|].
  reflexivity.
Qed.

Lemma analyze_file_by_rule_id_witness :
  exists ds,
    analyze_file (fun _ => Return (text_of_lines 501))
      (fun _ => Return a_tree) "m.py" = Return ds
    /\ with_rule_id "DEPR_001" ds =
       [ {| file := "m.py"; rule_id := "DEPR_001"; category := "Deprecated";
            severity := "HIGH"; message := "Deprecated module 'imp' used";
            line := 1 |};
         {| file := "m.py"; rule_id := "DEPR_001"; category := "Deprecated";
            severity := "HIGH";
            message := "Deprecated module 'optparse' used"; line := 7 |} ].
Proof.
  destruct (analyze_file_by_rule_id (fun _ => Return (text_of_lines 501))
              (fun _ => Return a_tree) "m.py" (text_of_lines 501) a_tree
              eq_refl eq_refl) as (ds & Hds & _ & _ & Hdepr & _).
  exists ds. split; [exact Hds|exact Hdepr].
Defined.

(** ** Reported lines *)

Lemma subtree_In_preorder (p : path) :
  forall t n, subtree t p = Some n -> In n (preorder t).
Proof.
  induction p as [|i p IH]; intros t n Hn; cbn [subtree] in Hn.
  - injection Hn as <-. rewrite preorder_unfold. now left.
  - destruct (nth_error (iter_child_nodes t) i) as [c|] eqn:Hi;
      [|discriminate].
    rewrite preorder_unfold. right. apply in_flat_map. exists c.
    split; [exact (nth_error_In _ _ Hi)|now apply IH].
Qed.

Lemma rule_line_of_node (file : string) (tree : node) (d : Diagnostic) :
  In d (issues (LongFunctionRule.visit tree (Rule_init file))
        ++ issues (DeprecatedImportRule.visit tree (Rule_init file))
        ++ issues (TooManyParametersRule.visit tree (Rule_init file))
        ++ issues (DeepNestingRule.visit tree 0 (Rule_init file))) ->
  exists n, In n (preorder tree) /\ node_line n = Some (line d).
Proof.
  rewrite !in_app_iff. intros [Hd|[Hd|[Hd|Hd]]].
  - apply In_long_function in Hd as (nm & a & l & e & cs & Hn & _ & ->).
    now exists (FunctionDef nm a l e cs).
  - rewrite DeprecatedImportRule_issues in Hd.
    apply in_flat_map in Hd as (n & Hn & Hd). exists n. split; [exact Hn|].
    destruct n; try contradiction; cbn [deprecated_import_at] in Hd.
    + apply in_map_iff in Hd as (a & <- & _). reflexivity.
    + destruct module as [m|]; [|contradiction].
      destruct (denylisted m); [|contradiction].
      destruct Hd as [<-|[]]. reflexivity.
  - apply In_too_many_parameters in Hd
      as (nm & a & l & e & cs & Hn & _ & ->).
    now exists (FunctionDef nm a l e cs).
  - apply In_deep_nesting in Hd as (p & l & cs & Hn & _ & ->).
    destruct Hn as [Hn|[Hn|Hn]]; apply subtree_In_preorder in Hn; eauto.
Qed.

(** X4: the line of every diagnostic of [analyze_file] is 1 for [ORG_001]
    and otherwise the [lineno] of a node of the parsed tree; with the 1-based
    line numbers that the parser gives, every reported line is at least 1. *)
Theorem analyze_file_lines (open_read : string -> result string)
  (ast_parse : string -> result node) (file_path text : string)
  (tree : node) (ds : list Diagnostic) (d : Diagnostic) :
  open_read file_path = Return text ->
  ast_parse text = Return tree ->
  analyze_file open_read ast_parse file_path = Return ds ->
  In d ds ->
  ((rule_id d = "ORG_001" /\ line d = 1)
   \/ exists n, In n (preorder tree) /\ node_line n = Some (line d))
  /\ (lines_positive tree -> 1 <= line d).
Proof.
  intros Hread Hparse Hret Hd.
  rewrite (analyze_file_parsed _ _ _ _ _ Hread Hparse) in Hret.
  injection Hret as <-. apply in_app_iff in Hd.
  assert (Hcases :
    (rule_id d = "ORG_001" /\ line d = 1)
    \/ exists n, In n (preorder tree) /\ node_line n = Some (line d)).
  { destruct Hd as [Hd|Hd].
    - left. unfold large_file_of in Hd.
      destruct (500 <? len (readlines text)); [|contradiction].
      destruct Hd as [<-|[]]. now split.
    - right. now apply (rule_line_of_node file_path). }
  split; [exact Hcases|]. intros Hpos.
  destruct Hcases as [(_ & ->)|(n & Hn & Hl)]; [lia|].
  exact (Hpos n (line d) Hn Hl).
Qed.

Lemma a_tree_lines_positive : lines_positive a_tree.
Proof.
  intros n l Hn Hl. cbn in Hn.
  repeat (destruct Hn as [<-|Hn]; [cbn in Hl; try discriminate;
                                   injection Hl as <-; lia|]).
  contradiction.
Qed.

Lemma analyze_file_lines_witness :
  lines_positive a_tree
  /\ 1 <= line {| file := "m.py"; rule_id := "SMELL_001";
                  category := "Code Smell"; severity := "MEDIUM";
                  message := "Deep nesting detected"; line := 8 |}.
Proof.
  split; [exact a_tree_lines_positive|].
  refine (proj2
    (analyze_file_lines (fun _ => Return (text_of_lines 501))
       (fun _ => Return a_tree) "m.py" (text_of_lines 501) a_tree _
       {| file := "m.py"; rule_id := "SMELL_001"; category := "Code Smell";
          severity := "MEDIUM"; message := "Deep nesting detected";
          line := 8 |}
       eq_refl eq_refl eq_refl _) a_tree_lines_positive).
  cbn. tauto.
Defined.

(** ** Deep nesting and the height of the nesting *)

Lemma DeepNestingRule_children (d : Z) (cs : list node) (self : Rule) :
  fold_left (fun self child => DeepNestingRule.visit child d self) cs self =
  {| file_path := file_path self;
     issues := issues self
       ++ flat_map
            (fun c => issues (DeepNestingRule.visit c d
                                (Rule_init (file_path self)))) cs |}.
Proof.
  apply (fold_visit_appends (fun c => DeepNestingRule.visit c d)
           (fun file c => issues (DeepNestingRule.visit c d (Rule_init file)))).
  apply Forall_forall. intros c _ s. apply DeepNestingRule_visit_fresh.
Qed.

(** The reports of a node: its own, then those of its children. *)
Lemma DeepNestingRule_unfold (file : string) (n : node) (d : Z) :
  let d' := d + (if is_branch n then 1 else 0) in
  issues (DeepNestingRule.visit n d (Rule_init file)) =
  (deep_nesting_at file n d'
   ++ flat_map (fun c => issues (DeepNestingRule.visit c d' (Rule_init file)))
        (iter_child_nodes n))%list.
Proof.
  destruct n; cbn [DeepNestingRule.visit is_branch iter_child_nodes
                   deep_nesting_at flat_map app];
    rewrite ?Z.add_0_r; try reflexivity;
    try (rewrite DeepNestingRule_children; reflexivity);
    unfold DeepNestingRule.MAX_DEPTH; rewrite Z.gtb_ltb;
    rewrite DeepNestingRule_children;
    destruct (3 <? d + 1); reflexivity.
Qed.

Lemma nesting_height_unfold (n : node) :
  nesting_height n =
  (if is_branch n then 1 else 0) + deepest (iter_child_nodes n).
Proof. destruct n; reflexivity. Qed.

Lemma deepest_le (cs : list node) (k : Z) :
  deepest cs <= k <-> 0 <= k /\ Forall (fun c => nesting_height c <= k) cs.
Proof.
  induction cs as [|c cs IH]; cbn [deepest fold_right].
  - split; [intros H; split; [exact H|constructor]|tauto].
  - fold (deepest cs). rewrite Z.max_lub_iff, IH, Forall_cons_iff. tauto.
Qed.

Lemma flat_map_nil_iff (A B : Type) (f : A -> list B) (l : list A) :
  flat_map f l = [] <-> Forall (fun x => f x = []) l.
Proof.
  induction l as [|x l IH]; cbn [flat_map].
  - split; [constructor|reflexivity].
  - rewrite Forall_cons_iff, <- IH. split.
    + intros H. apply app_eq_nil in H. exact H.
    + intros [-> ->]. reflexivity.
Qed.

Lemma DeepNestingRule_quiet (file : string) (n : node) :
  forall d, d <= 3 ->
    issues (DeepNestingRule.visit n d (Rule_init file)) = [] <->
    d + nesting_height n <= 3.
Proof.
  induction n as [n IH] using node_children_ind. intros d Hd.
  rewrite DeepNestingRule_unfold, nesting_height_unfold. cbv zeta.
  assert (Hcs : forall d', d' <= 3 ->
            flat_map (fun c => issues (DeepNestingRule.visit c d'
                                         (Rule_init file)))
              (iter_child_nodes n) = [] <->
            deepest (iter_child_nodes n) <= 3 - d').
  { intros d' Hd'. rewrite flat_map_nil_iff, deepest_le.
    split.
    - intros H. split; [lia|]. rewrite Forall_forall in *. intros c Hc.
      specialize (H c Hc). apply (IH c Hc d' Hd') in H. lia.
    - intros [_ H]. rewrite Forall_forall in *. intros c Hc.
      apply (IH c Hc d' Hd'). specialize (H c Hc). lia. }
  assert (Hnonneg : 0 <= deepest (iter_child_nodes n)).
  { apply (proj1 (deepest_le _ _) (Z.le_refl _)). }
  destruct n; cbn [is_branch deep_nesting_at app] in *;
    try (rewrite Z.add_0_r, (Hcs d Hd); lia).
  all: destruct (3 <? d + 1) eqn:Hlt;
    [apply Z.ltb_lt in Hlt; split; [discriminate|lia]
    |apply Z.ltb_ge in Hlt; cbn [app]; rewrite (Hcs (d + 1) Hlt); lia].
Qed.

(** X5: the Deep-Nesting rule reports nothing on a tree exactly when no chain
    of nested [If]/[For]/[While] constructs in it is longer than 3. *)
Theorem deep_nesting_quiet_iff (file : string) (tree : node) :
  issues (DeepNestingRule.visit tree 0 (Rule_init file)) = [] <->
  nesting_height tree <= 3.
Proof. rewrite (DeepNestingRule_quiet file tree 0) by lia. lia. Qed.

(** ** Reports cascade *)

Lemma nesting_depth_root (t : node) (q : path) :
  (if is_branch t then 1 else 0) <= nesting_depth t q.
Proof.
  unfold nesting_depth, len. destruct q as [|i q]; cbn [enclosing filter].
  - destruct (is_branch t); cbn [List.length]; lia.
  - destruct (is_branch t); cbn [List.length]; lia.
Qed.

Lemma nesting_depth_app (p : path) :
  forall t n q,
    subtree t p = Some n ->
    nesting_depth t p <= nesting_depth t (p ++ q)%list.
Proof.
  induction p as [|i p IH]; intros t n q Hn.
  - cbn [app]. unfold nesting_depth at 1. cbn [enclosing filter].
    pose proof (nesting_depth_root t q) as Hroot. unfold len.
    destruct (is_branch t); cbn [List.length]; lia.
  - cbn [subtree] in Hn. cbn [app].
    destruct (nth_error (iter_child_nodes t) i) as [c|] eqn:Hi;
      [|discriminate].
    rewrite !(nesting_depth_cons t c i _ Hi).
    specialize (IH c n q Hn). lia.
Qed.

(** X6: reports cascade: when a construct lies deeper than 3, it is reported
    and so is every [If]/[For]/[While] nested anywhere inside it. *)
Theorem deep_nesting_cascades (file : string) (tree : node) (p q : path)
  (l l' : Z) (cs cs' : list node) :
  (subtree tree p = Some (If l cs) \/ subtree tree p = Some (For l cs)
   \/ subtree tree p = Some (While l cs)) ->
  3 < nesting_depth tree p ->
  (subtree tree (p ++ q)%list = Some (If l' cs')
   \/ subtree tree (p ++ q)%list = Some (For l' cs')
   \/ subtree tree (p ++ q)%list = Some (While l' cs')) ->
  let reported (at_line : Z) :=
    In {| file := file; rule_id := "SMELL_001"; category := "Code Smell";
          severity := "MEDIUM"; message := "Deep nesting detected";
          line := at_line |}
       (issues (DeepNestingRule.visit tree 0 (Rule_init file))) in
  reported l /\ reported l'.
Proof.
  intros Hp Hdepth Hq reported. subst reported. split.
  - apply In_deep_nesting. exists p, l, cs. now repeat split.
  - apply In_deep_nesting.
    exists (p ++ q)%list, l', cs'. split; [exact Hq|]. split; [|reflexivity].
    assert (Hle : nesting_depth tree p <= nesting_depth tree (p ++ q)%list).
    { destruct Hp as [Hp|[Hp|Hp]]; exact (nesting_depth_app p _ _ q Hp). }
    lia.
Qed.

Lemma deep_nesting_cascades_witness :
  In {| file := "m.py"; rule_id := "SMELL_001"; category := "Code Smell";
        severity := "MEDIUM"; message := "Deep nesting detected";
        line := 5 |}
     (issues (DeepNestingRule.visit
                (Other [If 1 [If 2 [If 3 [If 4 [a_pass; While 5 []]]]]])
                0 (Rule_init "m.py"))).
Proof.
  refine (proj2
    (deep_nesting_cascades "m.py"
       (Other [If 1 [If 2 [If 3 [If 4 [a_pass; While 5 []]]]]])
       [0; 0; 0; 0]%nat [1]%nat 4 5 [a_pass; While 5 []] []
       (or_introl eq_refl) _ (or_intror (or_intror eq_refl)))).
  vm_compute. reflexivity.
Defined.

(** ** What counts as a line *)

Lemma readlines_nil (text : string) : readlines text = [] -> text = "".
Proof.
  destruct text as [|c rest]; [reflexivity|]. cbn [readlines].
  destruct (Ascii.eqb c LF); [discriminate|].
  destruct (readlines rest); discriminate.
Qed.

Lemma len_readlines (text : string) :
  len (readlines text) =
  count_LF text + (if open_ended text then 1 else 0).
Proof.
  unfold len. induction text as [|c rest IH]; [reflexivity|].
  cbn [readlines count_LF open_ended].
  destruct (Ascii.eqb c LF).
  - cbn [List.length negb]. destruct rest as [|c' rest']; [reflexivity|].
    lia.
  - destruct (readlines rest) as [|l ls] eqn:Hlines.
    + apply readlines_nil in Hlines. subst rest. reflexivity.
    + destruct rest as [|c' rest']; [discriminate Hlines|].
      cbn [List.length] in *. lia.
Qed.

(** X7: for [check_large_file] a line is a newline character, and a last
    line that does not end in a newline counts as well; the check answers with
    a diagnostic exactly when that count exceeds [max_lines], whatever the
    threshold, and the message carries the count. An empty file has no
    line. *)
Theorem check_large_file_counts (open_read : string -> result string)
  (file_path text : string) (max_lines : Z) :
  open_read file_path = Return text ->
  let n := count_LF text + (if open_ended text then 1 else 0) in
  check_large_file open_read file_path max_lines =
  Return (if max_lines <? n
          then Some {| file := file_path; rule_id := "ORG_001";
                       category := "Organization"; severity := "MEDIUM";
                       message := "File too large (" ++ str n ++ " lines)";
                       line := 1 |}
          else None)
  /\ (text = "" -> n = 0).
Proof.
  intros Hread n. subst n. split; [|now intros ->].
  unfold check_large_file, bind. rewrite Hread, Z.gtb_ltb, len_readlines.
  now destruct (max_lines <? _).
Qed.

Lemma check_large_file_counts_witness :
  check_large_file (fun _ => Return ("a" ++ String LF "b")) "two.py" 1 =
  Return (Some {| file := "two.py"; rule_id := "ORG_001";
                  category := "Organization"; severity := "MEDIUM";
                  message := "File too large (2 lines)"; line := 1 |}).
Proof.
  exact (proj1 (check_large_file_counts
                  (fun _ => Return ("a" ++ String LF "b")) "two.py"
                  ("a" ++ String LF "b") 1 eq_refl)).
Defined.

(** ** The file scanner *)

Lemma endswith_refl (s : string) : endswith s s = true.
Proof. destruct s; cbn [endswith]; now rewrite String.eqb_refl. Qed.

Lemma endswith_app (pre s suffix : string) :
  endswith s suffix = true -> endswith (pre ++ s) suffix = true.
Proof.
  intros H. induction pre as [|c pre IH]; [exact H|].
  cbn [append endswith]. rewrite IH. apply orb_true_r.
Qed.

Lemma endswith_iff (s suffix : string) :
  endswith s suffix = true <-> exists pre, s = pre ++ suffix.
Proof.
  split.
  - induction s as [|c s IH]; cbn [endswith]; intros H.
    + rewrite orb_false_r in H. apply String.eqb_eq in H. now exists "".
    + apply orb_true_iff in H as [H|H].
      * apply String.eqb_eq in H. now exists "".
      * destruct (IH H) as [pre ->]. now exists (String c pre).
  - intros [pre ->]. apply endswith_app, endswith_refl.
Qed.

Section Scanner_facts.
Variable os_path_isfile : string -> bool.
Variable os_walk : string -> list (string * list string * list string).
Variable os_path_join : string -> string -> string.

Lemma inner_loop_appends (root : string) (filenames files : list string) :
  fold_left
    (fun files file =>
       if endswith file ".py"
       then (files ++ [os_path_join root file])%list
       else files)
    filenames files =
  (files
   ++ map (os_path_join root)
        (filter (fun file => endswith file ".py") filenames))%list.
Proof.
  revert files. induction filenames as [|file filenames IH]; intros files.
  - cbn. now rewrite app_nil_r.
  - cbn [fold_left filter]. rewrite IH.
    destruct (endswith file ".py"); [|reflexivity].
    cbn [map]. now rewrite <- app_assoc.
Qed.

Lemma outer_loop_appends
  (entries : list (string * list string * list string))
  (files : list string) :
  fold_left
    (fun files '(root, _, filenames) =>
       fold_left
         (fun files file =>
            if endswith file ".py"
            then (files ++ [os_path_join root file])%list
            else files)
         filenames files)
    entries files =
  (files ++ flat_map (python_files_in os_path_join) entries)%list.
Proof.
  revert files. induction entries as [|[[root dirs] filenames] entries IH];
    intros files.
  - cbn. now rewrite app_nil_r.
  - cbn [fold_left flat_map]. rewrite IH, inner_loop_appends.
    cbn [python_files_in]. now rewrite <- app_assoc.
Qed.

(** X8: [get_python_files] answers with the path itself, without walking,
    when the path is a file named [*.py]; otherwise with the [*.py] names of
    the walk, each joined to its directory, in the order of the walk. The
    directory names of the walk are not looked at, and a path that the walk
    yields nothing for (a file of another name, a missing path) gives the
    empty list. *)
Theorem get_python_files_listing (path : string) :
  get_python_files os_path_isfile os_walk os_path_join path =
  (if os_path_isfile path && endswith path ".py"
   then [path]
   else flat_map (python_files_in os_path_join) (os_walk path))
  /\ (forall f,
        In f (get_python_files os_path_isfile os_walk os_path_join path) <->
        (os_path_isfile path && endswith path ".py" = true /\ f = path)
        \/ (os_path_isfile path && endswith path ".py" = false
            /\ exists root dirs filenames file,
                 In (root, dirs, filenames) (os_walk path)
                 /\ In file filenames /\ endswith file ".py" = true
                 /\ f = os_path_join root file)).
Proof.
  assert (Heq :
    get_python_files os_path_isfile os_walk os_path_join path =
    (if os_path_isfile path && endswith path ".py"
     then [path]
     else flat_map (python_files_in os_path_join) (os_walk path))).
  { unfold get_python_files.
    destruct (os_path_isfile path && endswith path ".py"); [reflexivity|].
    now rewrite outer_loop_appends. }
  split; [exact Heq|]. intros f. rewrite Heq.
  destruct (os_path_isfile path && endswith path ".py").
  - cbn [In]. split.
    + intros [<-|[]]. now left.
    + intros [[_ ->]|[[=] _]]. now left.
  - rewrite in_flat_map. split.
    + intros ([[root dirs] filenames] & Hentry & Hf). right.
      split; [reflexivity|]. cbn [python_files_in] in Hf.
      apply in_map_iff in Hf as (file & <- & Hfile).
      apply filter_In in Hfile as [Hfile Hpy].
      now exists root, dirs, filenames, file.
    + intros [[[=] _]|(_ & root & dirs & filenames & file & He & Hf & Hpy & ->)].
      exists (root, dirs, filenames). split; [exact He|].
      cbn [python_files_in]. apply in_map, filter_In. now split.
Qed.

(** X9: when joining keeps the file name at the end of the path, as
    [os.path.join] does, every path that [get_python_files] returns ends in
    [.py]. *)
Theorem get_python_files_py (path f : string) :
  (forall root file, exists pre, os_path_join root file = pre ++ file) ->
  In f (get_python_files os_path_isfile os_walk os_path_join path) ->
  endswith f ".py" = true.
Proof.
  intros Hjoin Hf. unfold get_python_files in Hf.
  destruct (os_path_isfile path && endswith path ".py") eqn:Hfile.
  - destruct Hf as [<-|[]]. now apply andb_true_iff in Hfile.
  - rewrite outer_loop_appends in Hf. cbn [app] in Hf.
    apply in_flat_map in Hf as ([[root dirs] filenames] & _ & Hf).
    cbn [python_files_in] in Hf.
    apply in_map_iff in Hf as (file & <- & Hin).
    apply filter_In in Hin as [_ Hpy].
    destruct (Hjoin root file) as [pre ->]. now apply endswith_app.
Qed.

End Scanner_facts.

Lemma posix_join_keeps_name (root file : string) :
  exists pre, posix_join root file = pre ++ file.
Proof.
  unfold posix_join. destruct (String.prefix "/" file); [now exists ""|].
  destruct (String.eqb root "" || endswith root "/"); [now exists root|].
  exists (root ++ "/"). now rewrite string_append_assoc.
Qed.

Lemma get_python_files_py_witness :
  In "src/b.py" (get_python_files (fun _ => false) a_walk posix_join "src")
  /\ endswith "src/b.py" ".py" = true.
Proof.
  assert (Hin : In "src/b.py"
                  (get_python_files (fun _ => false) a_walk posix_join "src")).
  { cbn. tauto. }
  split; [exact Hin|].
  exact (get_python_files_py (fun _ => false) a_walk posix_join "src"
           "src/b.py" posix_join_keeps_name Hin).
Defined.

(** ** The main entry *)

Section Main_facts.
Variable open_read : string -> result string.
Variable ast_parse : string -> result node.
Variable os_path_isfile : string -> bool.
Variable os_walk : string -> list (string * list string * list string).
Variable os_path_join : string -> string -> string.
Variable open_write : string -> result unit.
Variable json_dump : string -> list Diagnostic -> result unit.
Variable print : string -> result unit.

Lemma extend_all_returns (files : list string)
  (founds : list (list Diagnostic)) :
  Forall2 (fun file found =>
             analyze_file open_read ast_parse file = Return found)
    files founds ->
  forall all_issues,
    extend_all open_read ast_parse files all_issues =
    Return (all_issues ++ List.concat founds)%list.
Proof.
  induction 1 as [|file found files founds Hfile _ IH]; intros all_issues.
  - cbn. now rewrite app_nil_r.
  - cbn [extend_all List.concat]. rewrite Hfile. cbn [bind].
    rewrite IH. now rewrite <- app_assoc.
Qed.

Lemma extend_all_inv (files : list string) :
  forall all_issues all_issues',
    extend_all open_read ast_parse files all_issues = Return all_issues' ->
    exists founds,
      Forall2 (fun file found =>
                 analyze_file open_read ast_parse file = Return found)
        files founds
      /\ all_issues' = (all_issues ++ List.concat founds)%list.
Proof.
  induction files as [|file files IH]; intros all_issues all_issues' Hret.
  - cbn in Hret. injection Hret as <-. exists []. split; [constructor|].
    cbn. now rewrite app_nil_r.
  - cbn [extend_all] in Hret.
    destruct (analyze_file open_read ast_parse file) as [found|e] eqn:Hfile;
      [|discriminate Hret].
    cbn [bind] in Hret. apply IH in Hret as (founds & Hall & ->).
    exists (found :: founds). split; [now constructor|].
    cbn [List.concat]. now rewrite <- app_assoc.
Qed.

Lemma extend_all_raises (before after : list string) (file : string)
  (e : exn) :
  Forall (fun file =>
            exists found,
              analyze_file open_read ast_parse file = Return found) before ->
  analyze_file open_read ast_parse file = Raise e ->
  forall all_issues,
    extend_all open_read ast_parse (before ++ file :: after) all_issues =
    Raise e.
Proof.
  intros Hbefore Hfile.
  induction Hbefore as [|file' before [found Hfound] _ IH]; intros all_issues.
  - cbn [app extend_all]. now rewrite Hfile.
  - cbn [app extend_all]. rewrite Hfound. cbn [bind]. apply IH.
Qed.

Lemma extend_all_files (files : list string) (all_issues : list Diagnostic) :
  extend_all open_read ast_parse files [] = Return all_issues ->
  (forall d, In d all_issues -> In (file d) files)
  /\ (files = [] -> all_issues = []).
Proof.
  intros Hall. split.
  - apply extend_all_inv in Hall as (founds & Hfounds & ->). cbn [app].
    intros d Hd. apply in_concat in Hd as (found & Hfound & Hd).
    revert Hfound. induction Hfounds as [|f fd fs fds Hf _ IH]; [intros []|].
    intros [<-|Hfound].
    + left. symmetry.
      exact (proj1 (analyze_file_names_and_classes _ _ _ _ _ Hf Hd)).
    + right. now apply IH.
  - intros ->. cbn in Hall. now injection Hall as <-.
Qed.

(** X10: when every discovered file is analysed without an exception, [main]
    opens the file given by [--output], or [report.json], dumps to it the
    diagnostics of the files one after the other in the order of discovery,
    and prints two lines, the second with their number. Each of these steps
    can raise, and the exception ends the run with what was done before it:
    a standard output that cannot take the check mark makes [main] raise
    once the report is written. *)
Theorem main_report (path : string) (output : option string)
  (founds : list (list Diagnostic)) :
  let out := match output with Some o => o | None => "report.json" end in
  let all_issues := List.concat founds in
  let saved := CHECK_MARK ++ " Analysis complete. Report saved to " ++ out in
  let found := CHECK_MARK ++ " Issues found: " ++ str (len all_issues) in
  Forall2 (fun file found =>
             analyze_file open_read ast_parse file = Return found)
    (get_python_files os_path_isfile os_walk os_path_join path) founds ->
  main open_read ast_parse os_path_isfile os_walk os_path_join open_write
    json_dump print path output =
  match open_write out with
  | Raise e => ([], Raise e)
  | Return _ =>
      match json_dump out all_issues with
      | Raise e => ([Opened out], Raise e)
      | Return _ =>
          match print saved with
          | Raise e => ([Opened out; Dumped out all_issues], Raise e)
          | Return _ =>
              match print found with
              | Raise e =>
                  ([Opened out; Dumped out all_issues; Printed saved],
                   Raise e)
              | Return _ =>
                  ([Opened out; Dumped out all_issues; Printed saved;
                    Printed found],
                   Return tt)
              end
          end
      end
  end.
Proof.
  intros out all_issues saved found Hall. unfold main. fold out.
  rewrite (extend_all_returns _ _ Hall []). cbn [app].
  fold all_issues. fold saved. fold found.
  unfold act_bind, act_lift, perform.
  destruct (open_write out); [|reflexivity].
  destruct (json_dump out all_issues); [|reflexivity].
  destruct (print saved); [|reflexivity].
  unfold found. destruct (print _); reflexivity.
Qed.

(** X11: the first discovered file on which [analyze_file] raises ends the
    run: [main] raises that exception, whatever the files after it hold, and
    nothing is opened, dumped or printed, the diagnostics of the files before
    it included. *)
Theorem main_aborts (path : string) (output : option string)
  (before after : list string) (file : string) (e : exn) :
  get_python_files os_path_isfile os_walk os_path_join path =
  (before ++ file :: after)%list ->
  Forall (fun file =>
            exists found,
              analyze_file open_read ast_parse file = Return found) before ->
  analyze_file open_read ast_parse file = Raise e ->
  main open_read ast_parse os_path_isfile os_walk os_path_join open_write
    json_dump print path output = ([], Raise e).
Proof.
  intros Hfiles Hbefore Hfile. unfold main. rewrite Hfiles.
  now rewrite (extend_all_raises before after file e Hbefore Hfile []).
Qed.

(** X12: a run of [main] that ends normally has opened the output file,
    dumped one list and printed two lines; every dumped diagnostic belongs to
    one of the discovered files, the printed number is the number of dumped
    diagnostics, and an empty discovery dumps the empty list. *)
Theorem main_report_files (path : string) (output : option string)
  (done : list effect) :
  main open_read ast_parse os_path_isfile os_walk os_path_join open_write
    json_dump print path output = (done, Return tt) ->
  let out := match output with Some o => o | None => "report.json" end in
  exists all_issues,
    done =
    [ Opened out; Dumped out all_issues;
      Printed (CHECK_MARK ++ " Analysis complete. Report saved to " ++ out);
      Printed (CHECK_MARK ++ " Issues found: " ++ str (len all_issues)) ]
    /\ (forall d, In d all_issues ->
          In (file d)
             (get_python_files os_path_isfile os_walk os_path_join path))
    /\ (get_python_files os_path_isfile os_walk os_path_join path = [] ->
        all_issues = []).
Proof.
  intros Hret out. unfold main in Hret. fold out in Hret.
  destruct (extend_all open_read ast_parse
              (get_python_files os_path_isfile os_walk os_path_join path) [])
    as [all_issues|e] eqn:Hall; [|discriminate Hret].
  exists all_issues. split; [|exact (extend_all_files _ _ Hall)].
  unfold act_bind, act_lift, perform in Hret.
  destruct (open_write out); [|discriminate Hret].
  destruct (json_dump out all_issues); [|discriminate Hret].
  destruct (print _); [|discriminate Hret].
  destruct (print _); [|discriminate Hret].
  now injection Hret as <-.
Qed.

End Main_facts.

Lemma main_report_witness :
  let all_issues :=
    (large_file_of "src/a.py" (text_of_lines 501)
     ++ large_file_of "src/b.py" (text_of_lines 501))%list in
  main (fun _ => Return (text_of_lines 501)) (fun _ => Raise SyntaxError)
    (fun _ => false) a_walk posix_join (fun _ => Return tt)
    (fun _ _ => Return tt) (fun _ => Raise UnicodeEncodeError) "src" None =
  ([Opened "report.json"; Dumped "report.json" all_issues],
   Raise UnicodeEncodeError)
  /\ main (fun _ => Return (text_of_lines 501)) (fun _ => Raise SyntaxError)
       (fun _ => false) a_walk posix_join (fun _ => Return tt)
       (fun _ _ => Return tt) (fun _ => Return tt) "src" None =
     ([Opened "report.json"; Dumped "report.json" all_issues;
       Printed (CHECK_MARK
                  ++ " Analysis complete. Report saved to report.json");
       Printed (CHECK_MARK ++ " Issues found: 2")],
      Return tt).
Proof.
  cbv zeta. split.
  - exact (main_report (fun _ => Return (text_of_lines 501))
             (fun _ => Raise SyntaxError) (fun _ => false) a_walk posix_join
             (fun _ => Return tt) (fun _ _ => Return tt)
             (fun _ => Raise UnicodeEncodeError) "src" None
             [ large_file_of "src/a.py" (text_of_lines 501);
               large_file_of "src/b.py" (text_of_lines 501) ]
             (Forall2_cons _ _ eq_refl
                (Forall2_cons _ _ eq_refl (Forall2_nil _)))).
  - exact (main_report (fun _ => Return (text_of_lines 501))
             (fun _ => Raise SyntaxError) (fun _ => false) a_walk posix_join
             (fun _ => Return tt) (fun _ _ => Return tt)
             (fun _ => Return tt) "src" None
             [ large_file_of "src/a.py" (text_of_lines 501);
               large_file_of "src/b.py" (text_of_lines 501) ]
             (Forall2_cons _ _ eq_refl
                (Forall2_cons _ _ eq_refl (Forall2_nil _)))).
Defined.

Lemma main_aborts_witness :
  main a_read (fun _ => Raise SyntaxError) (fun _ => false) a_walk posix_join
    (fun _ => Return tt) (fun _ _ => Return tt) (fun _ => Return tt)
    "src" (Some "out.json") = ([], Raise UnicodeDecodeError).
Proof.
  apply (main_aborts a_read (fun _ => Raise SyntaxError) (fun _ => false)
           a_walk posix_join (fun _ => Return tt) (fun _ _ => Return tt)
           (fun _ => Return tt) "src" (Some "out.json")
           ["src/a.py"] [] "src/b.py" UnicodeDecodeError).
  - reflexivity.
  - constructor; [|constructor]. eexists. reflexivity.
  - reflexivity.
Defined.

Lemma main_report_files_witness :
  exists all_issues,
    map file all_issues = ["src/a.py"; "src/b.py"]
    /\ forall d, In d all_issues ->
         In (file d) (get_python_files (fun _ => false) a_walk posix_join
                        "src").
Proof.
  destruct (main_report_files (fun _ => Return (text_of_lines 501))
              (fun _ => Raise SyntaxError) (fun _ => false) a_walk posix_join
              (fun _ => Return tt) (fun _ _ => Return tt)
              (fun _ => Return tt) "src" None _ eq_refl)
    as (all_issues & Hdone & Hfiles & _).
  exists all_issues. split; [|exact Hfiles].
  injection Hdone as <-. reflexivity.
Defined.
